(** * vite-plugin-legacy: the dual-bundle synthesis pipeline

    A shallow embedding of [src/plugin.ts]: the capability test registry
    ([syntaxTests]), the loader script generator ([createScriptFactory]), the
    legacy bundle synthesizer ([createLegacyChunk]) and the build output
    splicer ([generateBundle] with its [html] and [assets] overrides).

    Strings are sequences of code units; the development works with code
    units below 256 (Rocq's [ascii]), which covers every literal of the
    plugin.  The external engines (Babel, Rollup) are section variables. *)

From Stdlib Require Import String Ascii List Arith Lia Bool.
Import ListNotations.
Open Scope string_scope.

(* ===================================================================== *)
(** * Part I: the model                                                   *)
(* ===================================================================== *)

(* --------------------------------------------------------------------- *)
(** ** JavaScript string primitives used by the plugin                    *)
(* --------------------------------------------------------------------- *)

Module Js.

(** Line feed, the double quote, the backslash and the slash. *)
Definition LF : ascii := "010"%char.
Definition DQ : ascii := "034"%char.
Definition BSL : ascii := "\"%char.
Definition SLASH : ascii := "/"%char.

Definition lf : string := String LF EmptyString.
Definition dq : string := String DQ EmptyString.

(** The class [\s] of a regular expression and the characters removed by
    [String.prototype.trim]: TAB, LF, VT, FF, CR, SP and NBSP (the other
    members of the class lie above code unit 255). *)
Definition is_white_space (c : ascii) : bool :=
  existsb (Ascii.eqb c)
    ["009"; "010"; "011"; "012"; "013"; " "; "160"]%char.

(** A value interpolated into a template: [undefined] prints as the word
    [undefined], a string as itself. *)
Definition to_string (v : option string) : string :=
  match v with
  | Some s => s
  | None => "undefined"
  end.

(** [s.split(sep)] for a separator of one character: never empty. *)
Fixpoint split (sep : ascii) (s : string) : list string :=
  match s with
  | EmptyString => [EmptyString]
  | String c r =>
      if Ascii.eqb c sep then EmptyString :: split sep r
      else match split sep r with
           | h :: t => String c h :: t
           | [] => [String c EmptyString]
           end
  end.

(** [parts.join(sep)]. *)
Fixpoint join (sep : string) (ls : list string) : string :=
  match ls with
  | [] => EmptyString
  | [l] => l
  | l :: rest => l ++ sep ++ join sep rest
  end.

(** [s.slice(n)] for [n >= 0]. *)
Fixpoint slice_from (n : nat) (s : string) : string :=
  match n, s with
  | 0, _ => s
  | S _, EmptyString => EmptyString
  | S k, String _ r => slice_from k r
  end.

Fixpoint trim_start (s : string) : string :=
  match s with
  | EmptyString => EmptyString
  | String c r => if is_white_space c then trim_start r else s
  end.

Fixpoint trim_end (s : string) : string :=
  match s with
  | EmptyString => EmptyString
  | String c r =>
      match trim_end r with
      | EmptyString => if is_white_space c then EmptyString
                       else String c EmptyString
      | r' => String c r'
      end
  end.

(** [s.trim()]. *)
Definition trim (s : string) : string := trim_end (trim_start s).

(** Matching a literal at the head of a string: the rest after it. *)
Fixpoint strip_prefix (lit s : string) : option string :=
  match lit with
  | EmptyString => Some s
  | String a lit' =>
      match s with
      | String b s' => if Ascii.eqb a b then strip_prefix lit' s' else None
      | EmptyString => None
      end
  end.

(** [s.toLowerCase()]: the letters A-Z and the capital letters of the
    Latin-1 block (192-222 without the multiplication sign 215). *)
Definition lower (c : ascii) : ascii :=
  let n := nat_of_ascii c in
  if (Nat.leb 65 n && Nat.leb n 90)
     || (Nat.leb 192 n && Nat.leb n 222 && negb (Nat.eqb n 215))
  then ascii_of_nat (n + 32) else c.

Fixpoint toLowerCase (s : string) : string :=
  match s with
  | EmptyString => EmptyString
  | String c r => String (lower c) (toLowerCase r)
  end.

End Js.

(* --------------------------------------------------------------------- *)
(** ** Node's [path] module (POSIX flavour)                               *)
(* --------------------------------------------------------------------- *)

(** [path] is taken on a POSIX platform, where it is [path.posix]; paths
    are handled by their segments between slashes. *)

Module Path.

Definition isAbsolute (p : string) : bool :=
  match p with
  | String c _ => Ascii.eqb c Js.SLASH
  | EmptyString => false
  end.

(** The last segment that is not empty, or the empty string. *)
Fixpoint last_segment (segs : list string) (found : string) : string :=
  match segs with
  | [] => found
  | seg :: rest =>
      last_segment rest (if String.eqb seg "" then found else seg)
  end.

(** [path.basename(p)]: trailing slashes are dropped, then the text after
    the last remaining slash is returned. *)
Definition basename (p : string) : string :=
  last_segment (Js.split Js.SLASH p) "".

(** One step of [normalizeString] on the stack of the segments kept so
    far (the last one first). *)
Definition normalize_step (allowAboveRoot : bool)
    (stack : list string) (seg : string) : list string :=
  if String.eqb seg "" || String.eqb seg "." then stack
  else if String.eqb seg ".." then
    match stack with
    | top :: below =>
        if String.eqb top ".."
        then (if allowAboveRoot then seg :: stack else stack)
        else below
    | [] => if allowAboveRoot then [seg] else []
    end
  else seg :: stack.

Definition normalizeString (p : string) (allowAboveRoot : bool) : string :=
  Js.join "/"
    (rev (fold_left (normalize_step allowAboveRoot)
            (Js.split Js.SLASH p) [])).

(** The loop of [path.posix.resolve], from the last argument to the first
    and then to the working directory, until an absolute path is met. *)
Fixpoint resolve_loop (cwd : string) (rev_args : list string)
    (resolvedPath : string) : string * bool :=
  match rev_args with
  | [] =>
      if String.eqb cwd "" then (resolvedPath, false)
      else (cwd ++ "/" ++ resolvedPath, isAbsolute cwd)
  | p :: rest =>
      if String.eqb p "" then resolve_loop cwd rest resolvedPath
      else
        let r := p ++ "/" ++ resolvedPath in
        if isAbsolute p then (r, true) else resolve_loop cwd rest r
  end.

(** [path.posix.resolve(...args)] in a process whose working directory is
    [cwd]. *)
Definition resolve (cwd : string) (args : list string) : string :=
  let (resolvedPath, resolvedAbsolute) := resolve_loop cwd (rev args) "" in
  let normalized := normalizeString resolvedPath (negb resolvedAbsolute) in
  if resolvedAbsolute then "/" ++ normalized
  else if String.eqb normalized "" then "." else normalized.

End Path.

(* --------------------------------------------------------------------- *)
(** ** The [dedent] template tag (package dedent, version 0.7.0)          *)
(* --------------------------------------------------------------------- *)

(** The plugin imports the tag from the package, whose code is not in the
    repository; the definitions follow the function the package exports:
    the raw pieces are cooked and joined with the values, the smallest
    indentation of the lines is taken off the lines that start with a
    blank, the text is trimmed, and the escaped line feeds of the whole
    text are replaced at the end. *)

Module Dedent.

Definition is_blank (c : ascii) : bool :=
  Ascii.eqb c " "%char || Ascii.eqb c "009"%char.

(** The first [replace] of a raw piece, which deletes every match of
    [/\\\n[ \t]*/g]: a backslash at the end of a line
    joins the line with the next one.  [skipping] is true while the blanks
    after such a backslash are being dropped. *)
Fixpoint join_suppressed (skipping : bool) (s : string) : string :=
  match s with
  | EmptyString => EmptyString
  | String c r =>
      if skipping && is_blank c then join_suppressed true r
      else
        match r with
        | String d r' =>
            if Ascii.eqb c Js.BSL && Ascii.eqb d Js.LF
            then join_suppressed true r'
            else String c (join_suppressed false r)
        | EmptyString => String c EmptyString
        end
  end.

(** [raw.replace(/\\`/g, "`")]. *)
Fixpoint unescape_backticks (s : string) : string :=
  match s with
  | EmptyString => EmptyString
  | String c r =>
      match r with
      | String d r' =>
          if Ascii.eqb c Js.BSL && Ascii.eqb d "`"%char
          then String d (unescape_backticks r')
          else String c (unescape_backticks r)
      | EmptyString => String c EmptyString
      end
  end.

Definition cook (raw : string) : string :=
  unescape_backticks (join_suppressed false raw).

(** The interpolation loop: the raw pieces with the values between. *)
Fixpoint interpolate (raw : list string) (values : list (option string))
    : string :=
  match raw with
  | [] => EmptyString
  | piece :: raw' =>
      match values with
      | v :: values' =>
          cook piece ++ Js.to_string v ++ interpolate raw' values'
      | [] => cook piece ++ interpolate raw' []
      end
  end.

(** The number of white-space characters a string starts with. *)
Fixpoint leading_space (l : string) : nat :=
  match l with
  | String c r => if Js.is_white_space c then S (leading_space r) else 0
  | EmptyString => 0
  end.

(** [l.match(/^(\s+)\S+/)]: the length of the first group, when the line
    starts with white space that is followed by something else. *)
Definition indent_of (l : string) : option nat :=
  let n := leading_space l in
  match n, String.get n l with
  | S _, Some _ => Some n
  | _, _ => None
  end.

(** The [forEach] that computes [mindent]. *)
Definition min_indent (lines : list string) : option nat :=
  fold_left
    (fun mindent l =>
       match indent_of l with
       | Some indent =>
           match mindent with
           | None | Some 0 => Some indent
           | Some m => Some (Nat.min m indent)
           end
       | None => mindent
       end)
    lines None.

(** [l[0] === " " ? l.slice(mindent) : l]. *)
Definition strip_line (mindent : nat) (l : string) : string :=
  match l with
  | String c _ =>
      if Ascii.eqb c " "%char then Js.slice_from mindent l else l
  | EmptyString => l
  end.

(** [result.replace(/\\n/g, "\n")]. *)
Fixpoint unescape_newlines (s : string) : string :=
  match s with
  | EmptyString => EmptyString
  | String c r =>
      match r with
      | String d r' =>
          if Ascii.eqb c Js.BSL && Ascii.eqb d "n"%char
          then String Js.LF (unescape_newlines r')
          else String c (unescape_newlines r)
      | EmptyString => String c EmptyString
      end
  end.

Definition dedent (raw : list string) (values : list (option string))
    : string :=
  let result := interpolate raw values in
  let lines := Js.split Js.LF result in
  let result :=
    match min_indent lines with
    | Some mindent => Js.join Js.lf (map (strip_line mindent) lines)
    | None => result
    end in
  unescape_newlines (Js.trim result).

End Dedent.

(* --------------------------------------------------------------------- *)
(** ** The capability test registry and the loader script generator       *)
(* --------------------------------------------------------------------- *)

(** [syntaxTests[target]]: the probe registered for a target, [None] for
    [undefined].  The table is read at its type, an index from target names
    to strings: the targets are the ECMAScript levels of the build tool,
    none of which names a member of [Object.prototype]. *)
Definition syntaxTests (target : string) : option string :=
  if String.eqb target "es2018"
  then Some "void ({...{}}, /0/s, async function*(){})"
  else if String.eqb target "es2019" then Some "try{} catch{}"
  else if String.eqb target "es2020" then Some "0?.$"
  else None.

Definition moduleTest : string := "script.noModule.$".

(** The five literal pieces of the loader template, as the source file has
    them between the back quotes (lines end with a line feed). *)
Definition loader_pieces : list string :=
  [ Js.lf ++ "    <script>" ++ Js.lf
    ++ "      (function() {" ++ Js.lf
    ++ "        var script = document.createElement('script')" ++ Js.lf
    ++ "        try {" ++ Js.lf
    ++ "          ";
    Js.lf
    ++ "          eval('";
    "')" ++ Js.lf
    ++ "          script.type = 'module'" ++ Js.lf
    ++ "          script.src = '";
    "'" ++ Js.lf
    ++ "        } catch(e) {" ++ Js.lf
    ++ "          script.src = '";
    "'" ++ Js.lf
    ++ "        }" ++ Js.lf
    ++ "        document.head.appendChild(script)" ++ Js.lf
    ++ "      })()" ++ Js.lf
    ++ "    </script>" ++ Js.lf
    ++ "  " ].

(** The function [createScriptFactory] returns, for the [syntaxTest] it
    has looked up. *)
Definition loader_template (syntaxTest : option string)
    (modernBundleId legacyBundleId : string) : string :=
  Dedent.dedent loader_pieces
    [Some moduleTest; syntaxTest; Some modernBundleId; Some legacyBundleId].

Definition createScriptFactory (target : string)
    : string -> string -> string :=
  let syntaxTest := syntaxTests target in
  loader_template syntaxTest.

(* --------------------------------------------------------------------- *)
(** ** The loader script in the browser                                   *)
(* --------------------------------------------------------------------- *)

(** The statements of the loader, run on the script element they configure.
    A statement completes normally or throws; what it wrote to the element
    before throwing stays written. *)

Module Element.
Record t : Type := make { type : option string; src : option string }.
End Element.

(** What the loader can observe of a browser: whether script elements have
    the [noModule] property, and which sources [eval] runs to completion. *)
Record Browser : Type := {
  hasNoModule : bool;
  runs : string -> bool
}.

Record Document : Type := { head : list Element.t }.

Inductive Completion : Type := Normal | Throw.

Definition Stmt : Type := Element.t -> Element.t * Completion.

Definition seq (first second : Stmt) : Stmt :=
  fun script =>
    match first script with
    | (script', Normal) => second script'
    | thrown => thrown
    end.

Definition try_catch (body handler : Stmt) : Stmt :=
  fun script =>
    match body script with
    | (script', Throw) => handler script'
    | done => done
    end.

Notation "a ;; b" := (seq a b) (at level 61, right associativity).

(** [script.noModule.$]: reading [$] from [undefined] throws, reading it
    from a boolean gives [undefined]. *)
Definition module_test (b : Browser) : Stmt :=
  fun script => (script, if hasNoModule b then Normal else Throw).

(** [eval('...')]: the identifier [undefined] evaluates in every engine;
    any other source throws when the engine cannot parse or run it. *)
Definition eval_throws (b : Browser) (source : string) : bool :=
  if String.eqb source "undefined" then false else negb (runs b source).

Definition eval_probe (b : Browser) (source : string) : Stmt :=
  fun script => (script, if eval_throws b source then Throw else Normal).

Definition set_type (v : string) : Stmt :=
  fun script =>
    (Element.make (Some v) (Element.src script), Normal).

Definition set_src (v : string) : Stmt :=
  fun script =>
    (Element.make (Element.type script) (Some v), Normal).

(** [document.createElement('script')]. *)
Definition createElement : Element.t := Element.make None None.

Definition appendChild (doc : Document) (script : Element.t) : Document :=
  {| head := head doc ++ [script] |}.

(** The body of the function the loader calls, for the loader whose probe
    is the text [syntaxTest] and whose URLs are the last two arguments. *)
Definition loader_try (b : Browser)
    (syntaxTest modernBundleId legacyBundleId : string) : Stmt :=
  try_catch
    (module_test b ;;
     eval_probe b syntaxTest ;;
     set_type "module" ;;
     set_src modernBundleId)
    (set_src legacyBundleId).

Definition run_loader (b : Browser)
    (syntaxTest modernBundleId legacyBundleId : string) (doc : Document)
    : Document :=
  match loader_try b syntaxTest modernBundleId legacyBundleId createElement
  with
  | (script, Normal) => appendChild doc script
  | (_, Throw) => doc
  end.

(** The text of the loader between its values: up to the quote that opens
    the probe, from the quote that closes the probe to the one that opens
    the modern URL, from there to the one that opens the legacy URL, and
    after the quote that closes the legacy URL. *)
Definition loader_head : string :=
  "<script>" ++ Js.lf
  ++ "  (function() {" ++ Js.lf
  ++ "    var script = document.createElement('script')" ++ Js.lf
  ++ "    try {" ++ Js.lf
  ++ "      script.noModule.$" ++ Js.lf
  ++ "      eval('".
Definition loader_after_probe : string :=
  ")" ++ Js.lf
  ++ "      script.type = 'module'" ++ Js.lf
  ++ "      script.src = '".
Definition loader_after_modern : string :=
  Js.lf
  ++ "    } catch(e) {" ++ Js.lf
  ++ "      script.src = '".
Definition loader_tail : string :=
  Js.lf
  ++ "    }" ++ Js.lf
  ++ "    document.head.appendChild(script)" ++ Js.lf
  ++ "  })()" ++ Js.lf
  ++ "</script>".

(** A string literal in single quotes that stands for its own text: the
    characters up to the closing quote, none of them a backslash or a line
    break.  The result is the text and what follows the closing quote. *)
Fixpoint read_literal (s : string) : option (string * string) :=
  match s with
  | EmptyString => None
  | String c r =>
      if Ascii.eqb c "'"%char then Some (EmptyString, r)
      else if Ascii.eqb c Js.BSL || Ascii.eqb c Js.LF
              || Ascii.eqb c "013"%char then None
      else match read_literal r with
           | Some (v, rest) => Some (String c v, rest)
           | None => None
           end
  end.

(** The browser's reading of a script as the loader: the three values of
    the program, when the text is the loader's text around three such
    literals. *)
Definition read_loader (text : string) : option (string * string * string) :=
  match Js.strip_prefix loader_head text with
  | None => None
  | Some s1 =>
  match read_literal s1 with
  | None => None
  | Some (syntaxTest, s2) =>
  match Js.strip_prefix loader_after_probe s2 with
  | None => None
  | Some s3 =>
  match read_literal s3 with
  | None => None
  | Some (modernBundleId, s4) =>
  match Js.strip_prefix loader_after_modern s4 with
  | None => None
  | Some s5 =>
  match read_literal s5 with
  | None => None
  | Some (legacyBundleId, s6) =>
      if String.eqb s6 loader_tail
      then Some (syntaxTest, modernBundleId, legacyBundleId)
      else None
  end end end end end end.

(** The evaluation of a script text that is the loader; [None] for a text
    that does not read as the loader. *)
Definition evaluate (b : Browser) (text : string) (doc : Document)
    : option Document :=
  match read_loader text with
  | Some (syntaxTest, modernBundleId, legacyBundleId) =>
      Some (run_loader b syntaxTest modernBundleId legacyBundleId doc)
  | None => None
  end.

(** The URLs the browser fetches for the script elements of the head. *)
Definition requested (doc : Document) : list string :=
  flat_map (fun el => match Element.src el with
                      | Some url => [url]
                      | None => []
                      end) (head doc).

(* --------------------------------------------------------------------- *)
(** ** Build data                                                         *)
(* --------------------------------------------------------------------- *)

Record SourceMap : Type := { mappings : string }.

(** Rollup's [OutputChunk], with the fields the plugin reads. *)
Module Chunk.
Record t : Type := make {
  fileName : string;
  code : string;
  map : option SourceMap;
  isEntry : bool
}.
End Chunk.

(** An element of the output bundle: a chunk, or an asset (which has no
    [isEntry] property). *)
Inductive Output : Type :=
| OutChunk (c : Chunk.t)
| OutAsset (fileName : string) (source : string).

Inductive AssetType : Type := TypeChunk | TypeAsset.

(** The plugin's [ViteAsset]. *)
Module ViteAsset.
Record t : Type := make {
  type : AssetType;
  fileName : string;
  code : string;
  map : option SourceMap
}.
End ViteAsset.

(** A chunk seen at the type [ViteAsset] (the same object in JavaScript). *)
Definition asViteAsset (c : Chunk.t) : ViteAsset.t :=
  ViteAsset.make TypeChunk (Chunk.fileName c) (Chunk.code c) (Chunk.map c).

(** The option [minify]: a boolean, or the name of a minifier. *)
Inductive Minify : Type :=
| MinifyFalse | MinifyTrue | MinifyTerser | MinifyEsbuild.

(** The fields of Vite's [BuildConfig] that the plugin reads. *)
Record BuildConfig : Type := {
  root : string;
  outDir : string;
  assetsDir : string;
  sourcemap : bool;
  minify : Minify;
  terserOption : string;
  write : bool;
  esbuildTarget : string
}.

(** Plugin configuration. *)
Record Config : Type := {
  targets : option string;
  ignoreBrowserslistConfig : option bool
}.

Record EnvOptions : Type := {
  env_bugfixes : bool;
  env_useBuiltIns : string;
  env_corejs : nat;
  env_targets : string;
  env_ignoreBrowserslistConfig : option bool
}.

Definition getBabelEnv (config : Config) : EnvOptions :=
  {| env_bugfixes := true;
     env_useBuiltIns := "usage";
     env_corejs := 3;
     env_targets := match targets config with
                    | Some t => t
                    | None => "defaults"
                    end;
     env_ignoreBrowserslistConfig := ignoreBrowserslistConfig config |}.

(** What a rejected promise or a [throw] carries. *)
Inductive Error : Type :=
| TypeError (message : string)
| PluginError (message : string)
| EngineError (message : string).

Definition Result (A : Type) : Type := (Error + A)%type.

Definition ret {A} (a : A) : Result A := inr a.
Definition throw {A} (e : Error) : Result A := inl e.
Definition bind {A B} (m : Result A) (k : A -> Result B) : Result B :=
  match m with
  | inl e => inl e
  | inr a => k a
  end.

Notation "x <- m ;;; k" := (bind m (fun x => k))
  (at level 62, m at next level, right associativity).

(* --------------------------------------------------------------------- *)
(** ** The legacy bundle synthesizer                                      *)
(* --------------------------------------------------------------------- *)

(** [fileName.replace(/\.js$/, '.legacy.js')]: the expression can match at
    one place only, where the rest of the name is [.js]. *)
Fixpoint legacyFileName (fileName : string) : string :=
  match fileName with
  | EmptyString => EmptyString
  | String c rest =>
      if String.eqb fileName ".js" then ".legacy.js"
      else String c (legacyFileName rest)
  end.

(** The name the specification describes, for comparison with
    [legacyFileName]: [.legacy] inserted before the final extension, the
    extension being the text from the last dot of the name on. *)
Fixpoint split_extension (name : string) : string * string :=
  match name with
  | EmptyString => (EmptyString, EmptyString)
  | String c rest =>
      let (stem, ext) := split_extension rest in
      if String.eqb ext "" then
        if Ascii.eqb c "."%char then (EmptyString, name)
        else (String c stem, EmptyString)
      else (String c stem, ext)
  end.

Definition spec_legacy_name (name : string) : string :=
  let (stem, ext) := split_extension name in stem ++ ".legacy" ++ ext.

(** The options handed to Babel. *)
Record BabelOptions : Type := {
  configFile : bool;
  inputSourceMap : option SourceMap;
  sourceMaps : bool;
  presets : list (string * EnvOptions)
}.

Record BabelFileResult : Type := {
  babel_code : string;
  babel_map : option SourceMap
}.

(** The nested Rollup run: the synthetic entry, what the resolve plugin
    loads for it, the terser plugin when minification is on, and the output
    options. *)
Record RollupJob : Type := {
  input : string;
  load_code : string;
  load_map : option SourceMap;
  commonjs_sourceMap : bool;
  terser : option string;
  out_file : string;
  out_format : string;
  out_sourcemap : bool;
  out_sourcemapExcludeSources : bool;
  out_inlineDynamicImports : bool
}.

Definition babelOptions (mainChunk : Chunk.t) (viteConfig : BuildConfig)
    (babelEnv : EnvOptions) : BabelOptions :=
  {| configFile := false;
     inputSourceMap := Chunk.map mainChunk;
     sourceMaps := sourcemap viteConfig;
     presets := [("@babel/preset-env", babelEnv)] |}.

(** The [TypeError] of reading [mainChunk.code] when [mainChunk] is
    [undefined]. *)
Definition code_of_undefined : Error :=
  TypeError "Cannot read property 'code' of undefined".

(** [Error('[vite-plugin-legacy] Failed to transform modern bundle')]. *)
Definition transform_failed : Error :=
  PluginError "[vite-plugin-legacy] Failed to transform modern bundle".

Section Synthesizer.

(** [process.cwd()]. *)
Variable cwd : string.

(** [babel.transformAsync]: the promise rejects, or resolves to [null]
    ([None]) or to a result. *)
Variable transformAsync :
  string -> BabelOptions -> Result (option BabelFileResult).

(** [rollup(...)] followed by [bundle.generate(...)]: the promise rejects,
    or resolves to the chunks generated, of which the plugin takes the
    first. *)
Variable rollup_generate : RollupJob -> Result Chunk.t.

(** The file the legacy chunk is generated for; Rollup names the chunk by
    the base name of this file. *)
Definition legacyPath (mainChunk : Chunk.t) (viteConfig : BuildConfig)
    : string :=
  Path.resolve cwd
    [root viteConfig; outDir viteConfig; assetsDir viteConfig;
     legacyFileName (Chunk.fileName mainChunk)].

(** [mainChunk] is [None] when the caller passes [undefined]: reading
    [mainChunk.code] throws then. *)
Definition createLegacyChunk (mainChunk : option Chunk.t)
    (viteConfig : BuildConfig) (babelEnv : EnvOptions) : Result Chunk.t :=
  match mainChunk with
  | None => throw code_of_undefined
  | Some mainChunk =>
      transformed <-
        transformAsync (Chunk.code mainChunk)
          (babelOptions mainChunk viteConfig babelEnv) ;;;
      match transformed with
      | None => throw transform_failed
      | Some transformed =>
          let legacyPath := legacyPath mainChunk viteConfig in
          rollup_generate
            {| input := legacyPath;
               load_code := babel_code transformed;
               load_map := babel_map transformed;
               commonjs_sourceMap := sourcemap viteConfig;
               terser := match minify viteConfig with
                         | MinifyFalse => None
                         | _ => Some (terserOption viteConfig)
                         end;
               out_file := legacyPath;
               out_format := "iife";
               out_sourcemap := sourcemap viteConfig;
               out_sourcemapExcludeSources := true;
               out_inlineDynamicImports := true |}
      end
  end.

End Synthesizer.

(* --------------------------------------------------------------------- *)
(** ** The build output splicer                                           *)
(* --------------------------------------------------------------------- *)

(** The two literal parts of the expression of the [html] setter: the
    opening of a script tag with the attributes [type] (of value [module])
    and [src], both in double quotes, up to the quote that opens the value
    of [src]; and the quote that closes it with the end of the tag. *)
Definition tag_open : string :=
  "<script type=" ++ Js.dq ++ "module" ++ Js.dq ++ " src=" ++ Js.dq.
Definition tag_close : string := Js.dq ++ "></script>".

(** The text of a module-script tag that refers to [moduleId]. *)
Definition module_script (moduleId : string) : string :=
  tag_open ++ moduleId ++ tag_close.

(** The group between the two parts: the longest run without a double
    quote, and what follows it. *)
Fixpoint span_no_dq (s : string) : string * string :=
  match s with
  | EmptyString => (EmptyString, EmptyString)
  | String c r =>
      if Ascii.eqb c Js.DQ then (EmptyString, s)
      else let (run, rest) := span_no_dq r in (String c run, rest)
  end.

(** The expression matched at the head of [s]: the group and the text after
    the match.  The group is greedy and takes one character at least; a
    shorter run cannot give a match either, as the character after it would
    not be the double quote. *)
Definition match_module_script (s : string) : option (string * string) :=
  match Js.strip_prefix tag_open s with
  | None => None
  | Some s1 =>
      let (moduleId, s2) := span_no_dq s1 in
      if String.eqb moduleId "" then None
      else match Js.strip_prefix tag_close s2 with
           | None => None
           | Some rest => Some (moduleId, rest)
           end
  end.

(** [content.replace(regexp, replacer)] with the [g] flag: the matches are
    taken from left to right, the search resuming where the last match
    ended; the replacer gets the matched text and the group.  [skip] counts
    the characters still to pass before the search resumes. *)
Fixpoint replace_from (replacer : string -> string -> string)
    (skip : nat) (content : string) : string :=
  match content with
  | EmptyString => EmptyString
  | String c content' =>
      match skip with
      | S skip' => replace_from replacer skip' content'
      | 0 =>
          match match_module_script content with
          | Some (moduleId, _) =>
              let matched := module_script moduleId in
              replacer matched moduleId
              ++ replace_from replacer (String.length matched - 1) content'
          | None => String c (replace_from replacer 0 content')
          end
      end
  end.

Definition replace_module_scripts (replacer : string -> string -> string)
    (content : string) : string :=
  replace_from replacer 0 content.

(** What [generateBundle] leaves in the closures of the two accessors. *)
Record Splice : Type := {
  getLoader : string -> string -> string;
  mainChunk : Chunk.t;
  legacyChunk : Chunk.t
}.

(** [const legacyAssets = [await createLegacyChunk(...)]]. *)
Definition legacyAssets (sp : Splice) : list Chunk.t := [legacyChunk sp].

(** The variables [html] and [assets] behind the accessors installed on
    [builds[0]]; both start out [undefined]. *)
Record Slots : Type := {
  html : option string;
  assets : option (list ViteAsset.t)
}.

Definition empty_slots : Slots := {| html := None; assets := None |}.

Definition get_html (st : Slots) : option string := html st.

Definition set_assets (sp : Splice) (modernAssets : list ViteAsset.t)
    (st : Slots) : Slots :=
  {| html := html st;
     assets := Some (modernAssets ++ map asViteAsset (legacyAssets sp))%list |}.

Definition get_assets (st : Slots) : option (list ViteAsset.t) := assets st.

(** The predicate of [find]: [asset.type == 'chunk' && asset.isEntry]. *)
Definition is_entry_chunk (asset : Output) : bool :=
  match asset with
  | OutChunk c => Chunk.isEntry c
  | OutAsset _ _ => false
  end.

(** [Object.values(bundle).find(...) as OutputChunk]; the bundle is given
    by its values in enumeration order. *)
Definition find_mainChunk (bundle : list Output) : option Chunk.t :=
  match find is_entry_chunk bundle with
  | Some (OutChunk c) => Some c
  | _ => None
  end.

Section Splicer.

Variable cwd : string.
Variable transformAsync :
  string -> BabelOptions -> Result (option BabelFileResult).
Variable rollup_generate : RollupJob -> Result Chunk.t.

(** The replacer of the [html] setter. *)
Definition html_replacer (sp : Splice) (matched moduleId : string)
    : string :=
  if String.eqb (Path.basename moduleId) (Chunk.fileName (mainChunk sp))
  then getLoader sp moduleId
         (Path.resolve cwd
            [moduleId; ".."; Chunk.fileName (legacyChunk sp)])
  else matched.

Definition set_html (sp : Splice) (content : string) (st : Slots)
    : Slots :=
  {| html := Some (replace_module_scripts (html_replacer sp) content);
     assets := assets st |}.

(** The hook [generateBundle] of the build plugin: on success the two
    accessors are installed, with nothing stored in them yet.  When no
    entry chunk is found [createLegacyChunk] is called with [undefined]
    and throws, so the last branch is never reached. *)
Definition generateBundle (config : Config) (viteConfig : BuildConfig)
    (bundle : list Output) : Result (Splice * Slots) :=
  let babelEnv := getBabelEnv config in
  let getLoader :=
    createScriptFactory (Js.toLowerCase (esbuildTarget viteConfig)) in
  let mainChunk := find_mainChunk bundle in
  legacy <-
    createLegacyChunk cwd transformAsync rollup_generate
      mainChunk viteConfig babelEnv ;;;
  match mainChunk with
  | Some mainChunk =>
      ret ({| getLoader := getLoader;
              mainChunk := mainChunk;
              legacyChunk := legacy |}, empty_slots)
  | None => throw (TypeError "Cannot read property 'fileName' of undefined")
  end.

(** [configureBuild]: nothing is registered unless the build writes its
    output. *)
Definition configureBuild (config : Config) (viteConfig : BuildConfig)
    : option (list Output -> Result (Splice * Slots)) :=
  if write viteConfig then Some (generateBundle config viteConfig)
  else None.

End Splicer.

(* --------------------------------------------------------------------- *)
(** ** The vocabulary of the statements                                   *)
(* --------------------------------------------------------------------- *)

(** No slash in a string. *)
Fixpoint no_slash (s : string) : bool :=
  match s with
  | EmptyString => true
  | String c r => negb (Ascii.eqb c Js.SLASH) && no_slash r
  end.

(** A file name without directory: one segment, and not one that
    [normalizeString] drops. *)
Definition plain_name (name : string) : bool :=
  no_slash name
  && negb (String.eqb name "" || String.eqb name "." || String.eqb name "..").

(** A text that a literal in single quotes stands for when it is written
    between the quotes as it is: no single quote, no backslash and no line
    break in it. *)
Fixpoint literal (v : string) : bool :=
  match v with
  | EmptyString => true
  | String c r =>
      negb (Ascii.eqb c "'"%char || Ascii.eqb c Js.BSL
            || Ascii.eqb c Js.LF || Ascii.eqb c "013"%char)
      && literal r
  end.

(** The element the loader configures when the browser passes both tests,
    and the one it configures when a test throws. *)
Definition modern_script (url : string) : Element.t :=
  Element.make (Some "module") (Some url).
Definition legacy_script (url : string) : Element.t :=
  Element.make None (Some url).

(** No double quote in a string. *)
Fixpoint no_dq (s : string) : bool :=
  match s with
  | EmptyString => true
  | String c r => negb (Ascii.eqb c Js.DQ) && no_dq r
  end.

(** What the group of the expression can be: one character at least and no
    double quote. *)
Definition valid_moduleId (moduleId : string) : bool :=
  negb (String.eqb moduleId "") && no_dq moduleId.

(** Some module-script tag occurs in a text. *)
Fixpoint contains_module_script (s : string) : bool :=
  match s with
  | EmptyString => false
  | String _ r =>
      match match_module_script s with
      | Some _ => true
      | None => contains_module_script r
      end
  end.

(** An HTML text cut at its module-script tags: the text before the first
    tag, the tag, and the rest cut in the same way. *)
Inductive Html : Type :=
| Text (text : string)
| Tag (text : string) (moduleId : string) (rest : Html).

(** The text that was cut. *)
Fixpoint render (h : Html) : string :=
  match h with
  | Text text => text
  | Tag text moduleId rest => text ++ module_script moduleId ++ render rest
  end.

(** The pieces of text hold no tag, and the tags are tags. *)
Fixpoint well_cut (h : Html) : bool :=
  match h with
  | Text text => negb (contains_module_script text)
  | Tag text moduleId rest =>
      negb (contains_module_script text)
      && valid_moduleId moduleId && well_cut rest
  end.

(** The loader generated for a tag. *)
Definition loader_for (cwd : string) (sp : Splice) (moduleId : string)
    : string :=
  getLoader sp moduleId
    (Path.resolve cwd [moduleId; ".."; Chunk.fileName (legacyChunk sp)]).

(** The text expected of the override: the tags whose base name is the file
    name of the entry chunk give way to the loader, everything else
    stays. *)
Fixpoint spliced (cwd : string) (sp : Splice) (h : Html) : string :=
  match h with
  | Text text => text
  | Tag text moduleId rest =>
      text
      ++ (if String.eqb (Path.basename moduleId)
                        (Chunk.fileName (mainChunk sp))
          then loader_for cwd sp moduleId
          else module_script moduleId)
      ++ spliced cwd sp rest
  end.




(** The entry's tag with the attributes in single quotes. *)
Definition tag_single_quoted (moduleId : string) : string :=
  "<script type='module' src='" ++ moduleId ++ "'></script>".



(** A text ends inside the value of [src] of a module-script opening: one
    of its suffixes is the opening part followed by a run without double
    quote.  What follows such a text is no tag of the page, but the rest of
    the value. *)
Fixpoint inside_src_value (s : string) : bool :=
  match s with
  | EmptyString => false
  | String _ r =>
      match Js.strip_prefix tag_open s with
      | Some v => no_dq v
      | None => false
      end
      || inside_src_value r
  end.

(** The entry's tag with more attributes: [before_type], [between] and
    [after_src] are the texts put after the name of the tag, between the two
    attributes, and after the value of [src]. *)
Definition tag_with_attributes
    (before_type between after_src moduleId : string) : string :=
  "<script" ++ before_type ++ " type=" ++ Js.dq ++ "module" ++ Js.dq
  ++ between ++ " src=" ++ Js.dq ++ moduleId ++ Js.dq ++ after_src
  ++ "></script>".




(** No line feed in a string. *)
Fixpoint no_lf (s : string) : bool :=
  match s with
  | EmptyString => true
  | String c r => negb (Ascii.eqb c Js.LF) && no_lf r
  end.

(** A backslash followed by the letter [n] occurs in a string. *)
Fixpoint has_escaped_n (s : string) : bool :=
  match s with
  | EmptyString => false
  | String c r =>
      match r with
      | String d _ =>
          (Ascii.eqb c Js.BSL && Ascii.eqb d "n"%char) || has_escaped_n r
      | EmptyString => false
      end
  end.

(** The values [dedent] leaves as they are. *)
Definition verbatim (v : string) : bool :=
  no_lf v && negb (has_escaped_n v).

(** The template with its three values written in as they are. *)
Definition loader_text (syntaxTest modernBundleId legacyBundleId : string)
    : string :=
  "<script>" ++ Js.lf
  ++ "  (function() {" ++ Js.lf
  ++ "    var script = document.createElement('script')" ++ Js.lf
  ++ "    try {" ++ Js.lf
  ++ "      script.noModule.$" ++ Js.lf
  ++ "      eval('" ++ syntaxTest ++ "')" ++ Js.lf
  ++ "      script.type = 'module'" ++ Js.lf
  ++ "      script.src = '" ++ modernBundleId ++ "'" ++ Js.lf
  ++ "    } catch(e) {" ++ Js.lf
  ++ "      script.src = '" ++ legacyBundleId ++ "'" ++ Js.lf
  ++ "    }" ++ Js.lf
  ++ "    document.head.appendChild(script)" ++ Js.lf
  ++ "  })()" ++ Js.lf
  ++ "</script>".

(** The lines of the template after the interpolation. *)
Definition loader_lines (syntaxTest modernBundleId legacyBundleId : string)
    : list string :=
  [ "";
    "    <script>";
    "      (function() {";
    "        var script = document.createElement('script')";
    "        try {";
    "          script.noModule.$";
    "          eval('" ++ syntaxTest ++ "')";
    "          script.type = 'module'";
    "          script.src = '" ++ modernBundleId ++ "'";
    "        } catch(e) {";
    "          script.src = '" ++ legacyBundleId ++ "'";
    "        }";
    "        document.head.appendChild(script)";
    "      })()";
    "    </script>";
    "  " ].

(** The last character of a string is a backslash; the first one is the
    letter [n]. *)
Fixpoint last_is_backslash (s : string) : bool :=
  match s with
  | EmptyString => false
  | String c EmptyString => Ascii.eqb c Js.BSL
  | String _ r => last_is_backslash r
  end.

Definition first_is_n (s : string) : bool :=
  match s with
  | String c _ => Ascii.eqb c "n"%char
  | EmptyString => false
  end.

(* --------------------------------------------------------------------- *)
(** ** The resolve plugin of the nested bundle, and further vocabulary    *)
(* --------------------------------------------------------------------- *)

(** [id.startsWith(prefix)]. *)
Definition startsWith (prefix id : string) : bool :=
  match Js.strip_prefix prefix id with
  | Some _ => true
  | None => false
  end.

Section ResolvePlugin.

(** [require.resolve]: the file of a module, or the error thrown for a
    module that is not installed. *)
Variable require_resolve : string -> Result string.

(** The two variables of [createLegacyChunk] the plugin closes over. *)
Variable legacyPath : string.
Variable transformed : BabelFileResult.

(** The hook [resolveId] of the plugin [vite-legacy:resolve]; [None] is the
    [undefined] that leaves the id to the other plugins. *)
Definition resolveId (id : string) : Result (option string) :=
  if String.eqb id legacyPath then ret (Some id)
  else if startsWith "core-js/" id
       then resolved <- require_resolve id ;;; ret (Some resolved)
       else ret None.

(** The hook [load] of the same plugin: the code and the map Babel
    returned, for the legacy path only. *)
Definition load (id : string) : option (string * option SourceMap) :=
  if String.eqb id legacyPath
  then Some (babel_code transformed, babel_map transformed)
  else None.

End ResolvePlugin.

(** The Rollup run [createLegacyChunk] starts for an entry chunk and the
    result of Babel. *)
Definition legacy_job (cwd : string) (mainChunk : Chunk.t)
    (viteConfig : BuildConfig) (transformed : BabelFileResult) : RollupJob :=
  let legacyPath := legacyPath cwd mainChunk viteConfig in
  {| input := legacyPath;
     load_code := babel_code transformed;
     load_map := babel_map transformed;
     commonjs_sourceMap := sourcemap viteConfig;
     terser := match minify viteConfig with
               | MinifyFalse => None
               | _ => Some (terserOption viteConfig)
               end;
     out_file := legacyPath;
     out_format := "iife";
     out_sourcemap := sourcemap viteConfig;
     out_sourcemapExcludeSources := true;
     out_inlineDynamicImports := true |}.

(** A name ends in [.js]: the one place where the expression of
    [legacyFileName] matches. *)
Fixpoint ends_with_js (name : string) : bool :=
  match name with
  | EmptyString => false
  | String _ rest => String.eqb name ".js" || ends_with_js rest
  end.

(** The accessors installed for an entry chunk and the legacy chunk
    generated for it. *)
Definition installed (viteConfig : BuildConfig) (mainChunk legacy : Chunk.t)
    : Splice :=
  {| getLoader :=
       createScriptFactory (Js.toLowerCase (esbuildTarget viteConfig));
     mainChunk := mainChunk;
     legacyChunk := legacy |}.

(** The path of the given segments from the root. *)
Definition rooted (segments : list string) : string :=
  "/" ++ Js.join "/" segments.

(** All the segments are plain names. *)
Definition plain_names (segments : list string) : bool :=
  forallb plain_name segments.

(** The file name of the legacy artifact.  Rollup names the one chunk it
    generates for the output option [file] by the base name of that file,
    and the plugin passes [legacyPath] as [file]. *)
Definition legacy_artifact_name (cwd : string) (mainChunk : Chunk.t)
    (viteConfig : BuildConfig) : string :=
  Path.basename (legacyPath cwd mainChunk viteConfig).

(** The text after the last slash of a name; the name itself when it holds
    no slash. *)
Fixpoint after_last_slash (s : string) : string :=
  match s with
  | EmptyString => EmptyString
  | String c r =>
      if no_slash r
      then (if Ascii.eqb c Js.SLASH then r else s)
      else after_last_slash r
  end.

(** [s.endsWith(suffix)]. *)
Fixpoint endsWith (suffix s : string) : bool :=
  match s with
  | EmptyString => String.eqb s suffix
  | String _ r => String.eqb s suffix || endsWith suffix r
  end.

(** An element of the bundle that is a chunk flagged as entry, in the
    words of the specification. *)
Definition flagged_entry (o : Output) : Prop :=
  exists c, o = OutChunk c /\ Chunk.isEntry c = true.

(* ===================================================================== *)
(** * Part II: properties                                                 *)
(* ===================================================================== *)

(* --------------------------------------------------------------------- *)
(** ** Strings                                                            *)
(* --------------------------------------------------------------------- *)

Lemma append_assoc (a b c : string) : (a ++ b) ++ c = a ++ (b ++ c).
Proof. induction a as [|x a IH]; simpl; [reflexivity | now rewrite IH]. Qed.

Lemma append_nil_r (a : string) : a ++ "" = a.
Proof. induction a as [|x a IH]; simpl; [reflexivity | now rewrite IH]. Qed.

Lemma length_append (a b : string) :
  String.length (a ++ b) = String.length a + String.length b.
Proof. induction a as [|x a IH]; simpl; [reflexivity | now rewrite IH]. Qed.

(* --------------------------------------------------------------------- *)
(** ** The asset list                                                     *)
(* --------------------------------------------------------------------- *)

(** C3. The asset list read back from the override is the list the outer
    build stored with the legacy artifact appended: one element longer, the
    original assets first, each at its place and as it was. *)
Theorem assets_override_appends_legacy
    (sp : Splice) (modernAssets : list ViteAsset.t) (st : Slots) :
  let legacy := asViteAsset (legacyChunk sp) in
  exists final,
    get_assets (set_assets sp modernAssets st) = Some final
    /\ final = (modernAssets ++ [legacy])%list
    /\ List.length final = List.length modernAssets + 1
    /\ firstn (List.length modernAssets) final = modernAssets
    /\ skipn (List.length modernAssets) final = [legacy]
    /\ (forall i a, nth_error modernAssets i = Some a ->
                    nth_error final i = Some a).
Proof.
  cbv zeta. eexists. split; [reflexivity|]. simpl.
  split; [reflexivity|].
  split; [rewrite length_app; reflexivity|].
  split; [rewrite firstn_app, Nat.sub_diag, firstn_all; simpl;
          apply app_nil_r|].
  split; [rewrite skipn_app, Nat.sub_diag, skipn_all; reflexivity|].
  intros i a H. rewrite nth_error_app1; [exact H|].
  apply nth_error_Some. congruence.
Qed.

(* --------------------------------------------------------------------- *)
(** ** The entry chunk and the failures of the synthesis                  *)
(* --------------------------------------------------------------------- *)

Lemma find_split {A} (p : A -> bool) (l : list A) :
  match find p l with
  | Some x =>
      exists before after,
        l = (before ++ x :: after)%list
        /\ forallb (fun y => negb (p y)) before = true
        /\ p x = true
  | None => forallb (fun y => negb (p y)) l = true
  end.
Proof.
  induction l as [|y l IH]; simpl; [reflexivity|].
  destruct (p y) eqn:E.
  - exists [], l. auto.
  - destruct (find p l) as [x|].
    + destruct IH as (before & after & -> & Hb & Hx).
      exists (y :: before), after. simpl. rewrite E, Hb. auto.
    + rewrite IH. reflexivity.
Qed.

Lemma find_mainChunk_split (bundle : list Output) :
  match find_mainChunk bundle with
  | Some c =>
      exists before after,
        bundle = (before ++ OutChunk c :: after)%list
        /\ forallb (fun o => negb (is_entry_chunk o)) before = true
        /\ Chunk.isEntry c = true
  | None => forallb (fun o => negb (is_entry_chunk o)) bundle = true
  end.
Proof.
  unfold find_mainChunk.
  pose proof (find_split is_entry_chunk bundle) as H.
  destruct (find is_entry_chunk bundle) as [[c|n src]|]; [exact H| |exact H].
  destruct H as (_ & _ & _ & _ & H). discriminate.
Qed.

Lemma find_mainChunk_first (before after : list Output) (c : Chunk.t) :
  forallb (fun o => negb (is_entry_chunk o)) before = true ->
  Chunk.isEntry c = true ->
  find_mainChunk (before ++ OutChunk c :: after) = Some c.
Proof.
  intros Hb Hc. unfold find_mainChunk.
  induction before as [|o before IH]; cbn [app find].
  - cbn [is_entry_chunk]. now rewrite Hc.
  - cbn [forallb] in Hb. apply andb_true_iff in Hb as [Ho Hb].
    apply negb_true_iff in Ho. rewrite Ho. now apply IH.
Qed.

Lemma find_mainChunk_none (bundle : list Output) :
  forallb (fun o => negb (is_entry_chunk o)) bundle = true ->
  find_mainChunk bundle = None.
Proof.
  intros H. unfold find_mainChunk.
  induction bundle as [|o bundle IH]; [reflexivity|].
  cbn [forallb] in H. apply andb_true_iff in H as [Ho Hb].
  apply negb_true_iff in Ho. cbn [find]. rewrite Ho. now apply IH.
Qed.

Lemma not_flagged_forallb (l : list Output) :
  (forall o, In o l -> ~ flagged_entry o)
  <-> forallb (fun o => negb (is_entry_chunk o)) l = true.
Proof.
  rewrite forallb_forall. split; intros H o Ho.
  - apply negb_true_iff. destruct o as [c|name source]; [|reflexivity].
    cbn [is_entry_chunk]. destruct (Chunk.isEntry c) eqn:E; [|reflexivity].
    exfalso. apply (H _ Ho). now exists c.
  - intros (c & -> & Hc). specialize (H _ Ho).
    cbn [is_entry_chunk] in H. rewrite Hc in H. discriminate.
Qed.

Section SplicerFacts.

Variable cwd : string.
Variable transformAsync :
  string -> BabelOptions -> Result (option BabelFileResult).
Variable rollup_generate : RollupJob -> Result Chunk.t.

Lemma generateBundle_entry config viteConfig bundle c :
find_mainChunk bundle = Some c ->
generateBundle cwd transformAsync rollup_generate config viteConfig bundle
= bind (createLegacyChunk cwd transformAsync rollup_generate
          (Some c) viteConfig (getBabelEnv config))
    (fun legacy =>
       ret ({| getLoader :=
                 createScriptFactory
                   (Js.toLowerCase (esbuildTarget viteConfig));
               mainChunk := c;
               legacyChunk := legacy |}, empty_slots)).
Proof.
intros H. unfold generateBundle. rewrite H. reflexivity.
Qed.

Lemma generateBundle_no_entry config viteConfig bundle :
find_mainChunk bundle = None ->
generateBundle cwd transformAsync rollup_generate config viteConfig bundle
= throw code_of_undefined.
Proof.
intros H. unfold generateBundle. rewrite H. reflexivity.
Qed.

(** A build that does not write its output registers nothing. *)
Lemma configureBuild_dry config viteConfig :
  write viteConfig = false ->
  configureBuild cwd transformAsync rollup_generate config viteConfig = None.
Proof. intros H. unfold configureBuild. now rewrite H. Qed.

(** C8. The chunk handed to the synthesis is the first element of the
  bundle, in enumeration order, that is a chunk flagged as entry: when
  the bundle has such a chunk with no chunk flagged as entry before it,
  that chunk is the one found and synthesised from, whatever follows it;
  when no element is a chunk flagged as entry, the hook fails and
  installs nothing.  Every bundle is in one of the two cases. *)
Theorem entry_is_first_flagged_chunk config viteConfig bundle :
(forall before c after,
   bundle = (before ++ OutChunk c :: after)%list ->
   (forall o, In o before -> ~ flagged_entry o) ->
   Chunk.isEntry c = true ->
   find_mainChunk bundle = Some c
   /\ generateBundle cwd transformAsync rollup_generate
        config viteConfig bundle
      = bind (createLegacyChunk cwd transformAsync rollup_generate
                (Some c) viteConfig (getBabelEnv config))
          (fun legacy =>
             ret ({| getLoader :=
                       createScriptFactory
                         (Js.toLowerCase (esbuildTarget viteConfig));
                     mainChunk := c;
                     legacyChunk := legacy |}, empty_slots)))
/\ ((forall o, In o bundle -> ~ flagged_entry o) ->
    find_mainChunk bundle = None
    /\ generateBundle cwd transformAsync rollup_generate
         config viteConfig bundle
       = throw (TypeError "Cannot read property 'code' of undefined")
    /\ (forall sp st,
          generateBundle cwd transformAsync rollup_generate
            config viteConfig bundle
          <> ret (sp, st)))
/\ ((exists before c after,
       bundle = (before ++ OutChunk c :: after)%list
       /\ (forall o, In o before -> ~ flagged_entry o)
       /\ Chunk.isEntry c = true)
    \/ (forall o, In o bundle -> ~ flagged_entry o)).
Proof.
split; [|split].
- intros before c after -> Hb Hc.
  apply not_flagged_forallb in Hb.
  pose proof (find_mainChunk_first before after c Hb Hc) as E.
  split; [exact E|]. now apply generateBundle_entry.
- intros Hb. apply not_flagged_forallb in Hb.
  pose proof (find_mainChunk_none bundle Hb) as E.
  pose proof (generateBundle_no_entry config viteConfig bundle E) as Hg.
  split; [exact E|]. split; [exact Hg|].
  intros sp st. rewrite Hg. discriminate.
- pose proof (find_mainChunk_split bundle) as H.
  destruct (find_mainChunk bundle) as [c|].
  + left. destruct H as (before & after & Hcut & Hb & Hc).
    exists before, c, after. split; [exact Hcut|].
    split; [now apply not_flagged_forallb|exact Hc].
  + right. now apply not_flagged_forallb.
Qed.

(** C6. When Babel reports no result for the code of the entry chunk,
  the synthesis throws the plugin's error, the hook fails with it, and
  no artifact and no override come out of it. *)
Theorem transform_without_result_aborts config viteConfig bundle c :
find_mainChunk bundle = Some c ->
transformAsync (Chunk.code c)
  (babelOptions c viteConfig (getBabelEnv config)) = ret None ->
createLegacyChunk cwd transformAsync rollup_generate
  (Some c) viteConfig (getBabelEnv config)
= throw (PluginError
           "[vite-plugin-legacy] Failed to transform modern bundle")
/\ generateBundle cwd transformAsync rollup_generate
     config viteConfig bundle
   = throw (PluginError
              "[vite-plugin-legacy] Failed to transform modern bundle")
/\ (forall sp st,
      generateBundle cwd transformAsync rollup_generate
        config viteConfig bundle
      <> ret (sp, st)).
Proof.
intros Hfind Hnull.
assert (Hs : createLegacyChunk cwd transformAsync rollup_generate
               (Some c) viteConfig (getBabelEnv config)
             = throw transform_failed).
{ unfold createLegacyChunk. rewrite Hnull. reflexivity. }
assert (Hh : generateBundle cwd transformAsync rollup_generate
               config viteConfig bundle
             = throw transform_failed).
{ rewrite (generateBundle_entry _ _ _ _ Hfind), Hs. reflexivity. }
split; [exact Hs|]. split; [exact Hh|].
intros sp st. rewrite Hh. discriminate.
Qed.

End SplicerFacts.

Lemma transform_without_result_aborts_example :
  let c := Chunk.make "main.js" "export {}" None true in
  let bundle := [OutAsset "style.css" "body{}"; OutChunk c] in
  let viteConfig :=
    {| root := "/app"; outDir := "dist"; assetsDir := "assets";
       sourcemap := false; minify := MinifyTerser; terserOption := "";
       write := true; esbuildTarget := "es2019" |} in
  let config := {| targets := None; ignoreBrowserslistConfig := None |} in
  let babel := fun (_ : string) (_ : BabelOptions) =>
                 ret (A := option BabelFileResult) None in
  let rollup := fun job : RollupJob => ret (Chunk.make "x" "" None true) in
  createLegacyChunk "/app" babel rollup (Some c) viteConfig
    (getBabelEnv config)
  = throw (PluginError
             "[vite-plugin-legacy] Failed to transform modern bundle")
  /\ generateBundle "/app" babel rollup config viteConfig bundle
     = throw (PluginError
                "[vite-plugin-legacy] Failed to transform modern bundle")
  /\ (forall sp st,
        generateBundle "/app" babel rollup config viteConfig bundle
        <> ret (sp, st)).
Proof.
  cbv zeta.
  apply (transform_without_result_aborts "/app"
           (fun _ _ => ret None)
           (fun _ => ret (Chunk.make "x" "" None true))
           {| targets := None; ignoreBrowserslistConfig := None |}
           {| root := "/app"; outDir := "dist"; assetsDir := "assets";
              sourcemap := false; minify := MinifyTerser; terserOption := "";
              write := true; esbuildTarget := "es2019" |}
           [OutAsset "style.css" "body{}";
            OutChunk (Chunk.make "main.js" "export {}" None true)]
           (Chunk.make "main.js" "export {}" None true)).
  - reflexivity.
  - reflexivity.
Defined.

(* --------------------------------------------------------------------- *)
(** ** Paths                                                              *)
(* --------------------------------------------------------------------- *)

Lemma split_no_slash (name : string) :
  no_slash name = true -> Js.split Js.SLASH name = [name].
Proof.
  induction name as [|c name IH]; [reflexivity|]. cbn [no_slash]. intros H.
  apply andb_true_iff in H as [Hc Hn]. apply negb_true_iff in Hc.
  cbn [Js.split]. now rewrite Hc, (IH Hn).
Qed.

Lemma split_not_nil (sep : ascii) (s : string) : Js.split sep s <> [].
Proof.
  destruct s as [|c s]; cbn [Js.split]; [discriminate|].
  destruct (Ascii.eqb c sep); [discriminate|].
  destruct (Js.split sep s); discriminate.
Qed.

Lemma split_app_slash (a b : string) :
  Js.split Js.SLASH (a ++ "/" ++ b)
  = (Js.split Js.SLASH a ++ Js.split Js.SLASH b)%list.
Proof.
  induction a as [|c a IH]; [reflexivity|].
  change (String c a ++ "/" ++ b) with (String c (a ++ "/" ++ b)).
  cbn [Js.split]. rewrite IH.
  destruct (Ascii.eqb c Js.SLASH); [reflexivity|].
  pose proof (split_not_nil Js.SLASH a) as Hne.
  destruct (Js.split Js.SLASH a); [congruence|reflexivity].
Qed.

Lemma last_segment_app (l : list string) (name found : string) :
  name <> "" -> Path.last_segment (l ++ [name]) found = name.
Proof.
  revert found. induction l as [|x l IH]; intros found H; simpl.
  - destruct (String.eqb_spec name ""); [congruence|reflexivity].
  - now apply IH.
Qed.

Lemma plain_name_inv (name : string) :
  plain_name name = true ->
  no_slash name = true /\ name <> ""
  /\ (String.eqb name "" || String.eqb name ".") = false
  /\ String.eqb name ".." = false.
Proof.
  unfold plain_name. intros H. apply andb_true_iff in H as [H1 H2].
  apply negb_true_iff in H2. apply orb_false_iff in H2 as [H2 H3].
  pose proof H2 as H4. apply orb_false_iff in H4 as [H4 _].
  apply String.eqb_neq in H4. auto.
Qed.

(** The base name of a path that ends in a slash-free name after a slash,
    or that is such a name. *)
Lemma basename_last (dir name : string) :
  plain_name name = true ->
  Path.basename (dir ++ "/" ++ name) = name /\ Path.basename name = name.
Proof.
  intros H. apply plain_name_inv in H as (Hs & Hne & _).
  unfold Path.basename. rewrite split_app_slash, (split_no_slash _ Hs).
  split; [now apply last_segment_app|].
  apply (last_segment_app [] name "" Hne).
Qed.

Lemma resolve_loop_acc (cwd : string) (rev_args : list string) (acc : string) :
  exists pre abs,
    Path.resolve_loop cwd rev_args acc = (pre ++ acc, abs)
    /\ (pre = "" \/ exists dir, pre = dir ++ "/").
Proof.
  revert acc. induction rev_args as [|p rest IH]; intros acc;
    cbn [Path.resolve_loop].
  - destruct (String.eqb cwd "").
    + exists "", false. auto.
    + exists (cwd ++ "/"), (Path.isAbsolute cwd).
      rewrite append_assoc. eauto.
  - destruct (String.eqb p ""); [apply IH|].
    destruct (Path.isAbsolute p).
    + exists (p ++ "/"), true. rewrite append_assoc. eauto.
    + destruct (IH (p ++ "/" ++ acc)) as (pre & abs & E & Hpre).
      exists (pre ++ p ++ "/"), abs. rewrite E, !append_assoc.
      split; [reflexivity|]. right. exists (pre ++ p).
      now rewrite append_assoc.
Qed.

Lemma join_snoc (l : list string) (name : string) :
  Js.join "/" (l ++ [name])
  = match l with
    | [] => name
    | _ => Js.join "/" l ++ "/" ++ name
    end.
Proof.
  induction l as [|x l IH]; [reflexivity|].
  destruct l as [|y l]; [reflexivity|].
  change (Js.join "/" ((x :: y :: l) ++ [name]))
    with (x ++ "/" ++ Js.join "/" ((y :: l) ++ [name])).
  rewrite IH.
  change (Js.join "/" (x :: y :: l)) with (x ++ "/" ++ Js.join "/" (y :: l)).
  now rewrite !append_assoc.
Qed.

Lemma normalize_last (allow : bool) (pre name : string) :
  plain_name name = true ->
  (pre = "" \/ exists dir, pre = dir ++ "/") ->
  exists l,
    Path.normalizeString (pre ++ name ++ "/") allow
    = Js.join "/" (l ++ [name]).
Proof.
  intros H Hpre. apply plain_name_inv in H as (Hs & Hne & H1 & H2).
  unfold Path.normalizeString.
  assert (E : exists segs,
             Js.split Js.SLASH (pre ++ name ++ "/")
             = (segs ++ [name; ""])%list).
  { destruct Hpre as [->|[dir ->]].
    - exists []. simpl. rewrite <- (append_nil_r "/").
      rewrite split_app_slash, (split_no_slash _ Hs). reflexivity.
    - exists (Js.split Js.SLASH dir).
      rewrite append_assoc, split_app_slash. f_equal.
      rewrite <- (append_nil_r "/").
      rewrite split_app_slash, (split_no_slash _ Hs). reflexivity. }
  destruct E as [segs ->].
  rewrite fold_left_app. cbn [fold_left].
  set (stack := fold_left (Path.normalize_step allow) segs []).
  unfold Path.normalize_step at 2. rewrite H1, H2.
  unfold Path.normalize_step at 1. cbn [String.eqb orb].
  exists (rev stack). reflexivity.
Qed.

Lemma basename_resolve (cwd : string) (dirs : list string) (name : string) :
  plain_name name = true ->
  Path.basename (Path.resolve cwd (dirs ++ [name])) = name.
Proof.
  intros H. unfold Path.resolve. rewrite rev_app_distr.
  cbn [rev app Path.resolve_loop].
  pose proof (plain_name_inv _ H) as (Hs & Hne & H1 & H2).
  apply orb_false_iff in H1 as [H1 _]. rewrite H1.
  assert (Habs : Path.isAbsolute name = false).
  { destruct name as [|c name]; [reflexivity|].
    cbn [no_slash] in Hs. apply andb_true_iff in Hs as [Hc _].
    now apply negb_true_iff in Hc. }
  rewrite Habs.
  destruct (resolve_loop_acc cwd (rev dirs) (name ++ "/" ++ ""))
    as (pre & abs & E & Hpre).
  rewrite E.
  destruct (normalize_last (negb abs) pre name H Hpre) as [l El].
  change (name ++ "/" ++ "") with (name ++ "/").
  rewrite El, join_snoc.
  destruct abs; destruct l as [|x l].
  - apply (basename_last "" name H).
  - rewrite <- append_assoc. apply (basename_last _ name H).
  - destruct (String.eqb_spec name ""); [congruence|].
    apply (basename_last "" name H).
  - destruct (String.eqb_spec (Js.join "/" (x :: l) ++ "/" ++ name) "")
      as [E0|_].
    + apply (f_equal String.length) in E0.
      rewrite !length_append in E0. simpl in E0. lia.
    + apply (basename_last _ name H).
Qed.

(* --------------------------------------------------------------------- *)
(** ** The name of the legacy artifact                                    *)
(* --------------------------------------------------------------------- *)

Lemma legacyFileName_js (stem : string) :
  legacyFileName (stem ++ ".js") = stem ++ ".legacy.js".
Proof.
  induction stem as [|c stem IH]; [reflexivity|].
  cbn [append legacyFileName]. rewrite IH.
  destruct (String.eqb_spec (String c (stem ++ ".js")) ".js") as [E|_];
    [|reflexivity].
  apply (f_equal String.length) in E. simpl in E.
  rewrite length_append in E. simpl in E. lia.
Qed.

Lemma split_extension_js (stem : string) :
  split_extension (stem ++ ".js") = (stem, ".js").
Proof.
  induction stem as [|c stem IH]; [reflexivity|].
  cbn [append split_extension]. rewrite IH. reflexivity.
Qed.

Lemma no_slash_app (a b : string) :
  no_slash (a ++ b) = no_slash a && no_slash b.
Proof.
  induction a as [|c a IH]; simpl; [reflexivity|].
  now rewrite IH, andb_assoc.
Qed.

Lemma plain_name_legacy (stem : string) :
  plain_name (stem ++ ".js") = true ->
  plain_name (stem ++ ".legacy.js") = true.
Proof.
  intros H. apply plain_name_inv in H as (Hs & _).
  rewrite no_slash_app in Hs. apply andb_true_iff in Hs as [Hs _].
  unfold plain_name. rewrite no_slash_app, Hs. cbn [andb no_slash].
  apply negb_true_iff.
  assert (L : 10 <= String.length (stem ++ ".legacy.js"))
    by (rewrite length_append; simpl; lia).
  repeat match goal with
         | |- context [String.eqb ?a ?b] =>
             destruct (String.eqb_spec a b) as [E|_];
             [rewrite E in L; simpl in L; lia|]
         end.
  reflexivity.
Qed.

Lemma after_last_slash_no_slash (s : string) :
  no_slash (after_last_slash s) = true.
Proof.
  induction s as [|c s IH]; [reflexivity|].
  cbn [after_last_slash]. destruct (no_slash s) eqn:Hs; [|exact IH].
  destruct (Ascii.eqb c Js.SLASH) eqn:Hc; [exact Hs|].
  cbn [no_slash]. now rewrite Hc, Hs.
Qed.

Lemma after_last_slash_cases (s : string) :
  (no_slash s = true /\ after_last_slash s = s)
  \/ (no_slash s = false
      /\ exists dir, s = dir ++ "/" ++ after_last_slash s).
Proof.
  induction s as [|c s IH]; [now left|].
  cbn [after_last_slash no_slash].
  destruct (no_slash s) eqn:Hs.
  - destruct (Ascii.eqb_spec c Js.SLASH) as [->|_].
    + right. split; [reflexivity|]. now exists "".
    + left. now split.
  - right. rewrite andb_false_r. split; [reflexivity|].
    destruct IH as [[H _]|[_ [dir E]]]; [congruence|].
    exists (String c dir). cbn [append]. f_equal. exact E.
Qed.

Lemma plain_name_suffixed (stem suffix : string) :
  no_slash stem = true -> no_slash suffix = true ->
  3 <= String.length suffix ->
  plain_name (stem ++ suffix) = true.
Proof.
  intros Hs Hx L. unfold plain_name. rewrite no_slash_app, Hs, Hx.
  cbn [andb]. apply negb_true_iff.
  assert (L' : 3 <= String.length (stem ++ suffix))
    by (rewrite length_append; lia).
  repeat match goal with
         | |- context [String.eqb ?a ?b] =>
             destruct (String.eqb_spec a b) as [E|_];
             [rewrite E in L'; simpl in L'; lia|]
         end.
  reflexivity.
Qed.

(** The base name of a resolved path whose last argument ends in a plain
    name after a slash. *)
Lemma basename_resolve_nested (cwd : string) (dirs : list string)
    (dir name : string) :
  plain_name name = true ->
  Path.basename (Path.resolve cwd (dirs ++ [dir ++ "/" ++ name])) = name.
Proof.
  intros H. unfold Path.resolve. rewrite rev_app_distr.
  cbn [rev app Path.resolve_loop].
  assert (Hne : String.eqb (dir ++ "/" ++ name) "" = false).
  { apply String.eqb_neq. intros E. apply (f_equal String.length) in E.
    rewrite !length_append in E. simpl in E. lia. }
  rewrite Hne.
  assert (E : exists pre abs,
            (if Path.isAbsolute (dir ++ "/" ++ name)
             then ((dir ++ "/" ++ name) ++ "/" ++ "", true)
             else Path.resolve_loop cwd (rev dirs)
                    ((dir ++ "/" ++ name) ++ "/" ++ ""))
            = (pre ++ name ++ "/", abs)
            /\ (pre = "" \/ exists d, pre = d ++ "/")).
  { destruct (Path.isAbsolute (dir ++ "/" ++ name)).
    - exists (dir ++ "/"), true. rewrite !append_assoc. eauto.
    - destruct (resolve_loop_acc cwd (rev dirs)
                  ((dir ++ "/" ++ name) ++ "/" ++ ""))
        as (pre & abs & E & Hpre).
      exists (pre ++ dir ++ "/"), abs. rewrite E, !append_assoc.
      split; [reflexivity|]. right. exists (pre ++ dir).
      now rewrite append_assoc. }
  destruct E as (pre & abs & -> & Hpre).
  destruct (normalize_last (negb abs) pre name H Hpre) as [l El].
  rewrite El, join_snoc.
  pose proof (plain_name_inv _ H) as (_ & Hn & _).
  destruct abs; destruct l as [|x l].
  - apply (basename_last "" name H).
  - rewrite <- append_assoc. apply (basename_last _ name H).
  - destruct (String.eqb_spec name ""); [congruence|].
    apply (basename_last "" name H).
  - destruct (String.eqb_spec (Js.join "/" (x :: l) ++ "/" ++ name) "")
      as [E0|_].
    + apply (f_equal String.length) in E0.
      rewrite !length_append in E0. simpl in E0. lia.
    + apply (basename_last _ name H).
Qed.

(** The file name of the legacy artifact of an entry whose name ends in
    [.js]: the text after the last slash of the entry's name, with
    [.legacy] before the final [.js]. *)
Lemma legacy_artifact_name_js (cwd : string) (mainChunk : Chunk.t)
    (viteConfig : BuildConfig) (stem : string) :
  Chunk.fileName mainChunk = stem ++ ".js" ->
  legacy_artifact_name cwd mainChunk viteConfig
  = after_last_slash stem ++ ".legacy.js".
Proof.
  intros Hname. unfold legacy_artifact_name, legacyPath.
  rewrite Hname, legacyFileName_js.
  assert (Hplain : plain_name (after_last_slash stem ++ ".legacy.js") = true).
  { apply plain_name_suffixed;
      [apply after_last_slash_no_slash|reflexivity|simpl; lia]. }
  destruct (after_last_slash_cases stem) as [[_ E]|[_ [dir E]]].
  - rewrite E in *.
    apply (basename_resolve cwd
             [root viteConfig; outDir viteConfig; assetsDir viteConfig]).
    exact Hplain.
  - rewrite E at 1. rewrite !append_assoc.
    apply (basename_resolve_nested cwd
             [root viteConfig; outDir viteConfig; assetsDir viteConfig]).
    exact Hplain.
Qed.

Lemma endsWith_app (suffix stem : string) :
  endsWith suffix (stem ++ suffix) = true.
Proof.
  induction stem as [|c stem IH].
  - cbn [append]. destruct suffix; cbn [endsWith];
      rewrite String.eqb_refl; reflexivity.
  - cbn [append endsWith]. rewrite IH. apply orb_true_r.
Qed.

(** C4, as the source has it. For an entry whose file name ends in [.js]
    and holds no slash, the file name of the legacy artifact is the
    entry's name with [.legacy] put before that final extension, which is
    also the name the specification describes, and the name the plugin
    derives for the file of the artifact. *)
Theorem legacy_name_inserts_before_js
    (cwd : string) (viteConfig : BuildConfig) (mainChunk : Chunk.t)
    (stem : string) :
  Chunk.fileName mainChunk = stem ++ ".js" ->
  no_slash stem = true ->
  legacy_artifact_name cwd mainChunk viteConfig = stem ++ ".legacy" ++ ".js"
  /\ legacy_artifact_name cwd mainChunk viteConfig
     = spec_legacy_name (Chunk.fileName mainChunk)
  /\ legacyFileName (Chunk.fileName mainChunk) = stem ++ ".legacy" ++ ".js".
Proof.
  intros Hname Hs.
  assert (E : legacy_artifact_name cwd mainChunk viteConfig
              = stem ++ ".legacy" ++ ".js").
  { rewrite (legacy_artifact_name_js _ _ _ _ Hname).
    destruct (after_last_slash_cases stem) as [[_ ->]|[H _]];
      [reflexivity|congruence]. }
  split; [exact E|]. split.
  - rewrite E, Hname. unfold spec_legacy_name.
    now rewrite split_extension_js.
  - rewrite Hname. apply legacyFileName_js.
Qed.

(** The entry [main.a1b2.js] of the specification, for a project in [/app]
    built into [dist/_assets] from another directory. *)
Lemma legacy_name_inserts_before_js_example :
  let viteConfig :=
    {| root := "/app"; outDir := "dist"; assetsDir := "_assets";
       sourcemap := false; minify := MinifyTrue; terserOption := "";
       write := true; esbuildTarget := "es2019" |} in
  let mainChunk := Chunk.make "main.a1b2.js" "" None true in
  legacy_artifact_name "/home/dev" mainChunk viteConfig
  = "main.a1b2.legacy.js"
  /\ legacy_artifact_name "/home/dev" mainChunk viteConfig
     = spec_legacy_name "main.a1b2.js"
  /\ legacyFileName "main.a1b2.js" = "main.a1b2.legacy.js".
Proof.
  cbv zeta.
  exact (legacy_name_inserts_before_js "/home/dev"
           {| root := "/app"; outDir := "dist"; assetsDir := "_assets";
              sourcemap := false; minify := MinifyTrue; terserOption := "";
              write := true; esbuildTarget := "es2019" |}
           (Chunk.make "main.a1b2.js" "" None true)
           "main.a1b2" eq_refl eq_refl).
Defined.

(** C4 fails as stated, in two ways: an entry named [main.mjs] gives an
    artifact of the same name, where the specification asks for
    [main.legacy.mjs]; and an entry named [assets/main.js] gives an
    artifact named [main.legacy.js], without the directory of the
    entry. *)
Lemma legacy_name_not_for_every_extension :
  let viteConfig :=
    {| root := "/app"; outDir := "dist"; assetsDir := "_assets";
       sourcemap := false; minify := MinifyTrue; terserOption := "";
       write := true; esbuildTarget := "es2019" |} in
  let artifact name :=
    legacy_artifact_name "/home/dev" (Chunk.make name "" None true)
      viteConfig in
  artifact "main.mjs" = "main.mjs"
  /\ spec_legacy_name "main.mjs" = "main.legacy.mjs"
  /\ artifact "main.mjs" <> spec_legacy_name "main.mjs"
  /\ artifact "assets/main.js" = "main.legacy.js"
  /\ spec_legacy_name "assets/main.js" = "assets/main.legacy.js"
  /\ artifact "assets/main.js" <> spec_legacy_name "assets/main.js".
Proof.
  cbv zeta.
  repeat split; try (vm_compute; reflexivity);
    intros H; vm_compute in H; discriminate H.
Qed.

Lemma endsWith_not_in (suffix name : string) (existing : list string) :
  forallb (fun other => negb (endsWith suffix other)) existing = true ->
  endsWith suffix name = true -> ~ In name existing.
Proof.
  intros Hall Hname Hin.
  rewrite forallb_forall in Hall. specialize (Hall _ Hin).
  rewrite Hname in Hall. discriminate.
Qed.

(** C5, as the source has it. For an entry whose file name ends in [.js],
    the file name of the legacy artifact ends in [.legacy.js]: it differs
    from the entry's name, and from the name of every asset of the build
    that does not end in [.legacy.js] itself.  The artifact is named by the
    text after the last slash of the entry's name, with [.legacy] before
    the final [.js]. *)
Theorem legacy_name_collides_only_with_itself
    (cwd : string) (viteConfig : BuildConfig) (mainChunk : Chunk.t)
    (stem : string) (existing : list string) :
  Chunk.fileName mainChunk = stem ++ ".js" ->
  forallb (fun name => negb (endsWith ".legacy.js" name)) existing = true ->
  let artifact := legacy_artifact_name cwd mainChunk viteConfig in
  artifact <> Chunk.fileName mainChunk
  /\ ~ In artifact existing
  /\ artifact = after_last_slash stem ++ ".legacy.js".
Proof.
  intros Hname Hall. cbv zeta.
  pose proof (legacy_artifact_name_js cwd _ viteConfig _ Hname) as E.
  rewrite E, Hname. split; [|split; [|reflexivity]].
  - destruct (after_last_slash_cases stem) as [[_ ->]|[Hs _]].
    + intros H. apply (f_equal String.length) in H.
      rewrite !length_append in H. simpl in H. lia.
    + intros H. apply (f_equal no_slash) in H.
      rewrite !no_slash_app, after_last_slash_no_slash, Hs in H.
      discriminate.
  - apply (endsWith_not_in ".legacy.js"); [exact Hall|].
    apply endsWith_app.
Qed.

Lemma legacy_name_collides_only_with_itself_example :
  let viteConfig :=
    {| root := "/app"; outDir := "dist"; assetsDir := "_assets";
       sourcemap := false; minify := MinifyTrue; terserOption := "";
       write := true; esbuildTarget := "es2019" |} in
  let artifact :=
    legacy_artifact_name "/home/dev"
      (Chunk.make "js/main.js" "" None true) viteConfig in
  artifact <> "js/main.js"
  /\ ~ In artifact ["js/main.js"; "style.css"; "vendor.js"; "legacy.js"]
  /\ artifact = "main.legacy.js".
Proof.
  cbv zeta.
  exact (legacy_name_collides_only_with_itself "/home/dev"
           {| root := "/app"; outDir := "dist"; assetsDir := "_assets";
              sourcemap := false; minify := MinifyTrue; terserOption := "";
              write := true; esbuildTarget := "es2019" |}
           (Chunk.make "js/main.js" "" None true) "js/main"
           ["js/main.js"; "style.css"; "vendor.js"; "legacy.js"]
           eq_refl eq_refl).
Defined.

(** C5 fails as stated: nothing is checked.  The artifact of an entry
    [main.mjs] bears the entry's own name; the artifact of an entry
    [main.js], and of an entry [js/main.js] as well, bears the name of an
    asset of a build that already has a [main.legacy.js]. *)
Lemma legacy_name_can_collide :
  let viteConfig :=
    {| root := "/app"; outDir := "dist"; assetsDir := "_assets";
       sourcemap := false; minify := MinifyTrue; terserOption := "";
       write := true; esbuildTarget := "es2019" |} in
  let artifact name :=
    legacy_artifact_name "/home/dev" (Chunk.make name "" None true)
      viteConfig in
  let manifest :=
    map ViteAsset.fileName
      [ViteAsset.make TypeChunk "main.js" "" None;
       ViteAsset.make TypeAsset "main.legacy.js" "" None] in
  artifact "main.mjs" = "main.mjs"
  /\ In (artifact "main.js") manifest
  /\ In (artifact "js/main.js") manifest.
Proof.
  cbv zeta. split; [vm_compute; reflexivity|].
  split; right; left; vm_compute; reflexivity.
Qed.

(** The file of the legacy chunk for an entry [main.a1b2.js] of a project
    in [/app] built into [dist/_assets]. *)
Example legacy_path_scenario :
  legacyPath "/home/dev"
    (Chunk.make "main.a1b2.js" "" None true)
    {| root := "/app"; outDir := "dist"; assetsDir := "_assets";
       sourcemap := false; minify := MinifyTrue; terserOption := "";
       write := true; esbuildTarget := "es2019" |}
  = "/app/dist/_assets/main.a1b2.legacy.js".
Proof. reflexivity. Qed.

(* --------------------------------------------------------------------- *)
(** ** Matching a module-script tag                                       *)
(* --------------------------------------------------------------------- *)

Lemma strip_prefix_app (lit rest : string) :
  Js.strip_prefix lit (lit ++ rest) = Some rest.
Proof.
  induction lit as [|a lit IH]; simpl; [reflexivity|].
  now rewrite Ascii.eqb_refl.
Qed.

Lemma strip_prefix_inv (lit s rest : string) :
  Js.strip_prefix lit s = Some rest -> s = lit ++ rest.
Proof.
  revert s. induction lit as [|a lit IH]; simpl; intros s H.
  - now injection H as <-.
  - destruct s as [|b s]; [discriminate|].
    destruct (Ascii.eqb_spec a b) as [<-|]; [|discriminate].
    now rewrite (IH _ H).
Qed.

Lemma span_no_dq_app (run rest : string) :
  no_dq run = true ->
  span_no_dq (run ++ String Js.DQ rest) = (run, String Js.DQ rest).
Proof.
  induction run as [|c run IH]; simpl; intros H; [reflexivity|].
  apply andb_true_iff in H as [Hc Hr].
  apply negb_true_iff in Hc. rewrite Hc, (IH Hr). reflexivity.
Qed.

Lemma span_no_dq_inv (s run rest : string) :
  span_no_dq s = (run, rest) ->
  s = run ++ rest /\ no_dq run = true.
Proof.
  revert run rest. induction s as [|c s IH]; simpl; intros run rest H.
  - injection H as <- <-. auto.
  - destruct (Ascii.eqb c Js.DQ) eqn:E.
    + injection H as <- <-. auto.
    + destruct (span_no_dq s) as [run' rest'].
      injection H as <- <-.
      destruct (IH _ _ eq_refl) as [-> Hr].
      simpl. rewrite E, Hr. auto.
Qed.

Lemma match_module_script_tag (moduleId rest : string) :
  valid_moduleId moduleId = true ->
  match_module_script (module_script moduleId ++ rest)
  = Some (moduleId, rest).
Proof.
  intros H. apply andb_true_iff in H as [Hne Hdq].
  unfold match_module_script, module_script.
  rewrite !append_assoc, (strip_prefix_app tag_open).
  unfold tag_close at 1. unfold Js.dq. cbn [append].
  rewrite (span_no_dq_app _ _ Hdq).
  destruct (String.eqb moduleId ""); [discriminate|].
  reflexivity.
Qed.

Lemma match_module_script_inv (s moduleId rest : string) :
  match_module_script s = Some (moduleId, rest) ->
  s = module_script moduleId ++ rest /\ valid_moduleId moduleId = true.
Proof.
  unfold match_module_script. intros H.
  destruct (Js.strip_prefix tag_open s) as [s1|] eqn:E1; [|discriminate].
  destruct (span_no_dq s1) as [run s2] eqn:E2.
  destruct (String.eqb run "") eqn:E3; [discriminate|].
  destruct (Js.strip_prefix tag_close s2) as [r|] eqn:E4; [|discriminate].
  injection H as <- <-.
  apply strip_prefix_inv in E1, E4.
  apply span_no_dq_inv in E2 as [E2 Hdq]. subst.
  unfold module_script, valid_moduleId.
  rewrite !append_assoc, E3, Hdq. auto.
Qed.

Lemma no_dq_app (a b : string) :
  no_dq (a ++ b) = no_dq a && no_dq b.
Proof.
  induction a as [|c a IH]; simpl; [reflexivity|].
  now rewrite IH, andb_assoc.
Qed.

Lemma append_eq_cases (a b c d : string) :
  a ++ b = c ++ d ->
  (exists e, c = a ++ e /\ b = e ++ d)
  \/ (exists e, a = c ++ e /\ d = e ++ b).
Proof.
  revert c. induction a as [|x a IH]; simpl; intros c H.
  - left. exists c. auto.
  - destruct c as [|y c]; simpl in H.
    + right. exists (String x a). auto.
    + injection H as <- H.
      destruct (IH _ H) as [(e & -> & ->)|(e & -> & ->)];
        [left|right]; exists e; auto.
Qed.

(** A proper suffix of the opening part does not start with [<]. *)
Lemma tag_open_suffix (pre e : string) :
  tag_open = pre ++ e -> pre <> "" ->
  match e with
  | String c _ => c <> "<"%char
  | EmptyString => True
  end.
Proof.
  unfold tag_open, Js.dq. cbn [append]. intros H Hpre.
  destruct pre as [|? pre]; [congruence|]. clear Hpre.
  injection H as _ H.
  do 27 (destruct pre as [|? pre];
         [simpl in H; subst e; try exact I; discriminate
         |try discriminate H; injection H as _ H]).
Qed.

(** A proper suffix of the closing part that is not empty, followed by
    anything, does not start with [<s]. *)
Lemma tag_close_suffix (pre e rest : string) :
  tag_close = pre ++ e -> pre <> "" -> e <> "" ->
  match e ++ rest with
  | String c1 (String c2 _) => c1 <> "<"%char \/ c2 <> "s"%char
  | String c1 EmptyString => c1 <> "<"%char
  | EmptyString => True
  end.
Proof.
  unfold tag_close, Js.dq. cbn [append]. intros H Hpre He.
  destruct pre as [|? pre]; [congruence|]. clear Hpre.
  injection H as _ H.
  do 11 (destruct pre as [|? pre];
         [simpl in H; subst e; cbn [append];
          try congruence;
          try (left; discriminate); try (right; discriminate);
          try (destruct rest as [|? ?]; [discriminate|left; discriminate])
         |try discriminate H; injection H as _ H]).
Qed.

Lemma span_conflict (e id rest rest' : string) :
  no_dq e = true ->
  module_script id ++ rest = (e ++ tag_close) ++ rest' -> False.
Proof.
  intros He H. apply (f_equal span_no_dq) in H.
  rewrite append_assoc in H.
  unfold tag_close at 1, Js.dq in H. cbn [append] in H.
  rewrite (span_no_dq_app _ _ He) in H.
  unfold module_script, tag_open, Js.dq in H. cbn in H.
  discriminate H.
Qed.

(** Two module-script tags never overlap: a tag that starts before another
    one ends before it. *)
Lemma no_straddle (pre id rest id' rest' : string) :
  pre <> "" ->
  no_dq id' = true ->
  pre ++ module_script id ++ rest = module_script id' ++ rest' ->
  exists pre', pre = module_script id' ++ pre'.
Proof.
  intros Hpre Hdq H. symmetry in H.
  apply append_eq_cases in H as [(e & -> & _)|(e & Hm & Hr)];
    [now exists e|].
  destruct e as [|x e].
  { exists "". now rewrite append_nil_r in *. }
  exfalso. unfold module_script in Hm.
  apply append_eq_cases in Hm as [(e1 & -> & Hm)|(e1 & Hopen & He)].
  - apply append_eq_cases in Hm as [(e2 & -> & Hc)|(e2 & Hid & He)].
    + destruct e2 as [|y e2].
      * simpl in Hc. rewrite <- Hc in Hr.
        apply (span_conflict "" id rest rest'); [reflexivity|exact Hr].
      * pose proof (tag_close_suffix (String y e2) (String x e) rest' Hc)
          as Hs.
        rewrite <- Hr in Hs. unfold module_script, tag_open in Hs.
        cbn in Hs. destruct Hs as [Hs|Hs]; congruence.
    + rewrite Hid, no_dq_app in Hdq. apply andb_true_iff in Hdq as [_ Hdq].
      rewrite He in Hr.
      apply (span_conflict e2 id rest rest' Hdq Hr).
  - destruct e1 as [|y e1].
    + simpl in He. rewrite He in Hr.
      apply (span_conflict id' id rest rest' Hdq Hr).
    + pose proof (tag_open_suffix pre (String y e1) Hopen Hpre) as Hy.
      simpl in Hy, He. injection He as -> _.
      unfold module_script, tag_open in Hr. cbn in Hr. congruence.
Qed.

(* --------------------------------------------------------------------- *)
(** ** The replacement of the tags                                        *)
(* --------------------------------------------------------------------- *)

Lemma replace_from_skip (f : string -> string -> string) (a rest : string) :
  replace_from f (String.length a) (a ++ rest) = replace_from f 0 rest.
Proof.
  induction a as [|c a IH]; simpl; [|exact IH].
  destruct rest; reflexivity.
Qed.

Lemma replace_match (f : string -> string -> string)
    (s moduleId rest : string) :
  match_module_script s = Some (moduleId, rest) ->
  replace_module_scripts f s
  = f (module_script moduleId) moduleId ++ replace_module_scripts f rest.
Proof.
  intros H. unfold replace_module_scripts.
  destruct (match_module_script_inv _ _ _ H) as [Hs _].
  destruct s as [|c s]; [discriminate|].
  cbn [replace_from]. rewrite H. cbv zeta. f_equal.
  destruct (module_script moduleId) as [|c' m] eqn:Em; [discriminate|].
  simpl in Hs. injection Hs as _ ->.
  simpl. rewrite Nat.sub_0_r. apply replace_from_skip.
Qed.

Lemma replace_no_match (f : string -> string -> string)
    (c : ascii) (s : string) :
  match_module_script (String c s) = None ->
  replace_module_scripts f (String c s)
  = String c (replace_module_scripts f s).
Proof.
  intros H. unfold replace_module_scripts. cbn [replace_from].
  now rewrite H.
Qed.

Lemma replace_tag_free (f : string -> string -> string) (s : string) :
  contains_module_script s = false -> replace_module_scripts f s = s.
Proof.
  induction s as [|c s IH]; [reflexivity|].
  cbn [contains_module_script].
  destruct (match_module_script (String c s)) eqn:E; [discriminate|].
  intros H. rewrite (replace_no_match _ _ _ E), (IH H). reflexivity.
Qed.

Lemma match_module_script_extend (a b moduleId rest : string) :
  match_module_script a = Some (moduleId, rest) ->
  match_module_script (a ++ b) = Some (moduleId, rest ++ b).
Proof.
  intros H. apply match_module_script_inv in H as [-> Hv].
  rewrite append_assoc. now apply match_module_script_tag.
Qed.

(** The text before a tag, when it holds no tag itself, is copied and the
    tag is handed to the replacer. *)
Lemma replace_text_then_tag (f : string -> string -> string)
    (text moduleId rest : string) :
  contains_module_script text = false ->
  valid_moduleId moduleId = true ->
  replace_module_scripts f (text ++ module_script moduleId ++ rest)
  = text ++ f (module_script moduleId) moduleId
    ++ replace_module_scripts f rest.
Proof.
  intros Ht Hid. induction text as [|c text IH].
  - simpl. apply replace_match. now apply match_module_script_tag.
  - cbn [contains_module_script] in Ht.
    destruct (match_module_script (String c text)) eqn:E; [discriminate|].
    cbn [append].
    rewrite replace_no_match, (IH Ht); [reflexivity|].
    destruct (match_module_script
                (String c (text ++ module_script moduleId ++ rest)))
      as [[id' rest']|] eqn:E'; [|reflexivity].
    exfalso.
    apply match_module_script_inv in E' as [E' Hv].
    apply andb_true_iff in Hv as [Hne Hdq].
    destruct (no_straddle (String c text) moduleId rest id' rest')
      as [pre' Hpre]; [discriminate|exact Hdq|exact E'|].
    rewrite Hpre, match_module_script_tag in E; [discriminate|].
    unfold valid_moduleId. now rewrite Hne, Hdq.
Qed.

(* --------------------------------------------------------------------- *)
(** ** The HTML override                                                  *)
(* --------------------------------------------------------------------- *)

Lemma replace_render (cwd : string) (sp : Splice) (h : Html) :
  well_cut h = true ->
  replace_module_scripts (html_replacer cwd sp) (render h)
  = spliced cwd sp h.
Proof.
  induction h as [text|text moduleId rest IH];
    cbn [render well_cut spliced]; intros H.
  - apply replace_tag_free. now apply negb_true_iff.
  - apply andb_true_iff in H as [H Hrest].
    apply andb_true_iff in H as [Htext Hid].
    apply negb_true_iff in Htext.
    rewrite (replace_text_then_tag _ _ _ _ Htext Hid), (IH Hrest).
    unfold html_replacer at 1. reflexivity.
Qed.

Lemma first_tag (s : string) :
  contains_module_script s = true ->
  exists text moduleId rest,
    s = text ++ module_script moduleId ++ rest
    /\ contains_module_script text = false
    /\ valid_moduleId moduleId = true.
Proof.
  induction s as [|c s IH]; [discriminate|].
  cbn [contains_module_script].
  destruct (match_module_script (String c s)) as [[id rest]|] eqn:E.
  - intros _. apply match_module_script_inv in E as [E Hv].
    exists "", id, rest. auto.
  - intros H. destruct (IH H) as (text & id & rest & -> & Ht & Hv).
    exists (String c text), id, rest. repeat split; [|exact Hv].
    cbn [contains_module_script].
    destruct (match_module_script (String c text)) as [[id' r']|] eqn:E';
      [|exact Ht].
    apply (match_module_script_extend _ (module_script id ++ rest)) in E'.
    change (String c text ++ module_script id ++ rest)
      with (String c (text ++ module_script id ++ rest)) in E'.
    rewrite E' in E. discriminate.
Qed.

(** Every text can be cut at its tags. *)
Lemma cut_exists (content : string) :
  exists h, well_cut h = true /\ render h = content.
Proof.
  remember (String.length content) as n eqn:Hn.
  revert content Hn. induction n as [n IH] using lt_wf_ind.
  intros content Hn.
  destruct (contains_module_script content) eqn:E.
  - destruct (first_tag _ E) as (text & id & rest & -> & Ht & Hv).
    destruct (IH (String.length rest)) with (content := rest)
      as (h & Hh & Hr); [|reflexivity|].
    + subst n. rewrite !length_append. unfold module_script, tag_open.
      rewrite !length_append. simpl. lia.
    + exists (Tag text id h). cbn [render well_cut].
      rewrite Ht, Hv, Hh, Hr. auto.
  - exists (Text content). cbn [render well_cut]. rewrite E. auto.
Qed.

(** C2. The [html] override turns a module-script tag into the generated
    loader exactly when the base name of its [src] is the file name of the
    entry chunk; every other module-script tag and all the text around the
    tags come out as they went in.  Every text is covered, as every text
    can be cut at its tags. *)
Theorem html_override_rewrites_entry_tags_only
    (cwd : string) (sp : Splice) (st : Slots) :
  (forall h, well_cut h = true ->
     get_html (set_html cwd sp (render h) st) = Some (spliced cwd sp h))
  /\ (forall content, exists h, well_cut h = true /\ render h = content)
  /\ (forall moduleId,
        valid_moduleId moduleId = true ->
        get_html (set_html cwd sp (module_script moduleId) st)
        = Some (if String.eqb (Path.basename moduleId)
                              (Chunk.fileName (mainChunk sp))
                then loader_for cwd sp moduleId
                else module_script moduleId)).
Proof.
  split; [|split].
  - intros h H. unfold get_html, set_html. simpl.
    now rewrite replace_render.
  - apply cut_exists.
  - intros id Hv. unfold get_html, set_html. simpl. f_equal.
    pose proof (replace_render cwd sp (Tag "" id (Text ""))) as H.
    cbn [render well_cut spliced contains_module_script negb andb append]
      in H.
    rewrite Hv in H. specialize (H eq_refl).
    rewrite !append_nil_r in H. exact H.
Qed.

(** The scenario of the specification: the tag of the entry chunk
    [main.a1b2.js] gives way to a script that names both bundles, and the
    tag of another chunk stays. *)
Example html_override_scenario :
  let sp := {| getLoader := createScriptFactory "es2019";
               mainChunk := Chunk.make "main.a1b2.js" "" None true;
               legacyChunk :=
                 Chunk.make "main.a1b2.legacy.js" "" None true |} in
  get_html
    (set_html "/app" sp
       ("<head>" ++ module_script "/assets/vendor.js"
        ++ module_script "/assets/main.a1b2.js" ++ "</head>")
       empty_slots)
  = Some ("<head>" ++ module_script "/assets/vendor.js"
          ++ createScriptFactory "es2019" "/assets/main.a1b2.js"
               "/assets/main.a1b2.legacy.js"
          ++ "</head>").
Proof. vm_compute. reflexivity. Qed.

(* --------------------------------------------------------------------- *)
(** ** Tags of another shape                                              *)
(* --------------------------------------------------------------------- *)










(** *** A match that fails on a text fails on its extensions *)










Lemma strip_prefix_length (lit s rest : string) :
  Js.strip_prefix lit s = Some rest ->
  String.length s = String.length lit + String.length rest.
Proof.
  intros H. apply strip_prefix_inv in H. rewrite H.
  apply length_append.
Qed.



(** *** The replacement around a text that holds no tag *)



(** *** The shapes *)























(** A page whose tag for the entry chunk carries a quoted attribute: the
    loader is not put in its place. *)
Example html_override_skips_crossorigin_tag :
  let sp := {| getLoader := createScriptFactory "es2019";
               mainChunk := Chunk.make "main.js" "" None true;
               legacyChunk := Chunk.make "main.legacy.js" "" None true |} in
  let page :=
    "<html lang=" ++ Js.dq ++ "en" ++ Js.dq ++ "><head>"
    ++ tag_open ++ "/assets/main.js" ++ Js.dq
    ++ " crossorigin=" ++ Js.dq ++ "anonymous" ++ Js.dq ++ "></script>"
    ++ "</head></html>" in
  Path.basename "/assets/main.js" = Chunk.fileName (mainChunk sp)
  /\ get_html (set_html "/app" sp page empty_slots) = Some page.
Proof. vm_compute. split; reflexivity. Qed.

(** A page with two tags for the entry chunk, one with an attribute
    between [type] and [src], one of the exact shape: the first stays, the
    second gives way to the loader. *)
Example html_override_keeps_async_tag :
  let sp := {| getLoader := createScriptFactory "es2019";
               mainChunk := Chunk.make "main.js" "" None true;
               legacyChunk := Chunk.make "main.legacy.js" "" None true |} in
  let other := tag_with_attributes "" " async" "" "/assets/main.js" in
  get_html
    (set_html "/app" sp
       ("<head>" ++ other ++ module_script "/assets/main.js" ++ "</head>")
       empty_slots)
  = Some ("<head>" ++ other
          ++ getLoader sp "/assets/main.js" "/assets/main.legacy.js"
          ++ "</head>").
Proof. vm_compute. reflexivity. Qed.

(** A page with a tag for the entry chunk in single quotes after a
    style sheet and a module script of a vendor chunk: the text before the
    tag ends inside no value, and the page comes out as it went in. *)
Example html_override_keeps_single_quoted_tag :
  let sp := {| getLoader := createScriptFactory "es2019";
               mainChunk := Chunk.make "main.js" "" None true;
               legacyChunk := Chunk.make "main.legacy.js" "" None true |} in
  let before :=
    "<head><link rel=" ++ Js.dq ++ "stylesheet" ++ Js.dq ++ " href="
    ++ Js.dq ++ "/assets/style.css" ++ Js.dq ++ ">"
    ++ module_script "/assets/vendor.js" in
  let page :=
    before ++ tag_single_quoted "/assets/main.js" ++ "</head>" in
  inside_src_value before = false
  /\ get_html (set_html "/app" sp page empty_slots) = Some page.
Proof. vm_compute. split; reflexivity. Qed.

(* --------------------------------------------------------------------- *)
(** ** The text of the loader                                             *)
(* --------------------------------------------------------------------- *)

Lemma no_lf_app (a b : string) : no_lf (a ++ b) = no_lf a && no_lf b.
Proof.
  induction a as [|c a IH]; simpl; [reflexivity|].
  now rewrite IH, andb_assoc.
Qed.

Lemma split_no_lf (l : string) :
  no_lf l = true -> Js.split Js.LF l = [l].
Proof.
  induction l as [|c l IH]; simpl; [reflexivity|]. intros H.
  apply andb_true_iff in H as [Hc Hl]. apply negb_true_iff in Hc.
  now rewrite Hc, (IH Hl).
Qed.

Lemma split_line_then (l rest : string) :
  no_lf l = true ->
  Js.split Js.LF (l ++ Js.lf ++ rest) = l :: Js.split Js.LF rest.
Proof.
  induction l as [|c l IH]; [reflexivity|]. intros H.
  cbn [no_lf] in H. apply andb_true_iff in H as [Hc Hl].
  apply negb_true_iff in Hc.
  cbn [append Js.split]. now rewrite Hc, (IH Hl).
Qed.

Lemma split_join (lines : list string) :
  lines <> [] -> forallb no_lf lines = true ->
  Js.split Js.LF (Js.join Js.lf lines) = lines.
Proof.
  induction lines as [|l lines IH]; [congruence|]. intros _ H.
  simpl in H. apply andb_true_iff in H as [Hl Hrest].
  destruct lines as [|l' lines].
  - simpl. now apply split_no_lf.
  - change (Js.join Js.lf (l :: l' :: lines))
      with (l ++ Js.lf ++ Js.join Js.lf (l' :: lines)).
    rewrite (split_line_then _ _ Hl), IH; [reflexivity|discriminate|exact Hrest].
Qed.

Lemma trim_end_app (a b : string) :
  Js.trim_end b <> "" -> Js.trim_end (a ++ b) = a ++ Js.trim_end b.
Proof.
  intros Hb. induction a as [|c a IH]; [reflexivity|].
  cbn [append Js.trim_end]. rewrite IH.
  destruct (a ++ Js.trim_end b) eqn:E; [|reflexivity].
  destruct a; simpl in E; [congruence|discriminate].
Qed.

Lemma has_escaped_n_app (a b : string) :
  has_escaped_n (a ++ b)
  = has_escaped_n a || has_escaped_n b
    || (last_is_backslash a && first_is_n b).
Proof.
  induction a as [|c a IH]; [simpl; now rewrite orb_false_r|].
  destruct a as [|d a].
  - destruct b as [|d b]; simpl; [now rewrite andb_false_r|].
    apply orb_comm.
  - change (String c (String d a) ++ b) with (String c (String d a ++ b)).
    change (has_escaped_n (String c (String d a ++ b)))
      with ((Ascii.eqb c Js.BSL && Ascii.eqb d "n"%char)
            || has_escaped_n (String d a ++ b)).
    rewrite IH.
    change (has_escaped_n (String c (String d a)))
      with ((Ascii.eqb c Js.BSL && Ascii.eqb d "n"%char)
            || has_escaped_n (String d a)).
    change (last_is_backslash (String c (String d a)))
      with (last_is_backslash (String d a)).
    now rewrite !orb_assoc.
Qed.

Lemma unescape_newlines_id (s : string) :
  has_escaped_n s = false -> Dedent.unescape_newlines s = s.
Proof.
  induction s as [|c s IH]; [reflexivity|].
  destruct s as [|d s]; [reflexivity|].
  change (has_escaped_n (String c (String d s)))
    with ((Ascii.eqb c Js.BSL && Ascii.eqb d "n"%char)
          || has_escaped_n (String d s)).
  intros H. apply orb_false_iff in H as [Hcd Hs].
  change (Dedent.unescape_newlines (String c (String d s)))
    with (if Ascii.eqb c Js.BSL && Ascii.eqb d "n"%char
          then String Js.LF (Dedent.unescape_newlines s)
          else String c (Dedent.unescape_newlines (String d s))).
  now rewrite Hcd, (IH Hs).
Qed.

Lemma interpolate_lines (syntaxTest : option string)
    (modern legacy : string) :
  Dedent.interpolate loader_pieces
    [Some moduleTest; syntaxTest; Some modern; Some legacy]
  = Js.join Js.lf (loader_lines (Js.to_string syntaxTest) modern legacy).
Proof.
  unfold loader_pieces, loader_lines, moduleTest.
  cbn [Dedent.interpolate Js.join Js.to_string].
  unfold Dedent.cook.
  vm_compute Dedent.unescape_backticks.
  rewrite !append_assoc. reflexivity.
Qed.

Lemma loader_lines_no_lf (probe modern legacy : string) :
  no_lf probe = true -> no_lf modern = true -> no_lf legacy = true ->
  forallb no_lf (loader_lines probe modern legacy) = true.
Proof.
  intros Hp Hm Hl. unfold loader_lines. cbn [forallb].
  rewrite !no_lf_app, Hp, Hm, Hl. reflexivity.
Qed.

Lemma loader_min_indent (probe modern legacy : string) :
  Dedent.min_indent (loader_lines probe modern legacy) = Some 4.
Proof. reflexivity. Qed.

Lemma loader_stripped (probe modern legacy : string) :
  Js.join Js.lf
    (map (Dedent.strip_line 4) (loader_lines probe modern legacy))
  = Js.lf ++ loader_text probe modern legacy ++ Js.lf.
Proof.
  change (map (Dedent.strip_line 4) (loader_lines probe modern legacy))
    with [ "";
           "<script>";
           "  (function() {";
           "    var script = document.createElement('script')";
           "    try {";
           "      script.noModule.$";
           "      eval('" ++ probe ++ "')";
           "      script.type = 'module'";
           "      script.src = '" ++ modern ++ "'";
           "    } catch(e) {";
           "      script.src = '" ++ legacy ++ "'";
           "    }";
           "    document.head.appendChild(script)";
           "  })()";
           "</script>";
           "" ].
  cbn [Js.join]. unfold loader_text.
  rewrite !append_assoc, append_nil_r. reflexivity.
Qed.

Lemma loader_trimmed (probe modern legacy : string) :
  Js.trim (Js.lf ++ loader_text probe modern legacy ++ Js.lf)
  = loader_text probe modern legacy.
Proof.
  unfold Js.trim.
  change (Js.trim_start (Js.lf ++ loader_text probe modern legacy ++ Js.lf))
    with (loader_text probe modern legacy ++ Js.lf).
  set (front :=
    "<script>" ++ Js.lf
    ++ "  (function() {" ++ Js.lf
    ++ "    var script = document.createElement('script')" ++ Js.lf
    ++ "    try {" ++ Js.lf
    ++ "      script.noModule.$" ++ Js.lf
    ++ "      eval('" ++ probe ++ "')" ++ Js.lf
    ++ "      script.type = 'module'" ++ Js.lf
    ++ "      script.src = '" ++ modern ++ "'" ++ Js.lf
    ++ "    } catch(e) {" ++ Js.lf
    ++ "      script.src = '" ++ legacy ++ "'" ++ Js.lf
    ++ "    }" ++ Js.lf
    ++ "    document.head.appendChild(script)" ++ Js.lf
    ++ "  })()" ++ Js.lf).
  assert (E : loader_text probe modern legacy = front ++ "</script>").
  { unfold loader_text, front. rewrite !append_assoc. reflexivity. }
  rewrite E, append_assoc, trim_end_app; [reflexivity|discriminate].
Qed.

Lemma loader_text_no_escape (probe modern legacy : string) :
  has_escaped_n probe = false -> has_escaped_n modern = false ->
  has_escaped_n legacy = false ->
  has_escaped_n (loader_text probe modern legacy) = false.
Proof.
  intros Hp Hm Hl. unfold loader_text.
  rewrite !has_escaped_n_app, Hp, Hm, Hl.
  cbn. rewrite ?andb_false_r. reflexivity.
Qed.

Lemma verbatim_inv (v : string) :
  verbatim v = true -> no_lf v = true /\ has_escaped_n v = false.
Proof.
  unfold verbatim. intros H. apply andb_true_iff in H as [H1 H2].
  apply negb_true_iff in H2. auto.
Qed.

Lemma loader_template_verbatim (syntaxTest : option string)
    (modern legacy : string) :
  verbatim (Js.to_string syntaxTest) = true ->
  verbatim modern = true -> verbatim legacy = true ->
  loader_template syntaxTest modern legacy
  = loader_text (Js.to_string syntaxTest) modern legacy.
Proof.
  intros Hp Hm Hl.
  apply verbatim_inv in Hp as [Hp1 Hp2], Hm as [Hm1 Hm2], Hl as [Hl1 Hl2].
  unfold loader_template, Dedent.dedent. cbv zeta.
  rewrite interpolate_lines, split_join;
    [|discriminate|now apply loader_lines_no_lf].
  rewrite loader_min_indent, loader_stripped, loader_trimmed.
  apply unescape_newlines_id. now apply loader_text_no_escape.
Qed.

Lemma registered_probes_verbatim (target : string) :
  verbatim (Js.to_string (syntaxTests target)) = true.
Proof.
  unfold syntaxTests.
  repeat match goal with
         | |- context [String.eqb target ?k] => destruct (String.eqb target k)
         end; reflexivity.
Qed.

(** C10, as the source has it. For bundle URLs and a probe without a line
    feed and without a backslash before an [n], the script is the template
    with the values written in character for character, nothing escaped;
    so a single quote of a URL stands as it is inside the literal. *)
Theorem loader_text_is_verbatim
    (target : string) (syntaxTest : option string) (modern legacy : string) :
  verbatim modern = true -> verbatim legacy = true ->
  createScriptFactory target modern legacy
  = loader_text (Js.to_string (syntaxTests target)) modern legacy
  /\ (verbatim (Js.to_string syntaxTest) = true ->
      loader_template syntaxTest modern legacy
      = loader_text (Js.to_string syntaxTest) modern legacy)
  /\ createScriptFactory "es2020" "/it's/main.js" "/it's/main.legacy.js"
     = loader_text "0?.$" "/it's/main.js" "/it's/main.legacy.js".
Proof.
  intros Hm Hl. split; [|split].
  - unfold createScriptFactory. cbv zeta.
    apply loader_template_verbatim;
      [apply registered_probes_verbatim|exact Hm|exact Hl].
  - intros Hp. now apply loader_template_verbatim.
  - vm_compute. reflexivity.
Qed.

Lemma loader_text_is_verbatim_quote :
  verbatim "/it's/main.js" = true
  /\ verbatim "/it's/main.legacy.js" = true
  /\ createScriptFactory "es2019" "/it's/main.js" "/it's/main.legacy.js"
     = loader_text "try{} catch{}" "/it's/main.js" "/it's/main.legacy.js".
Proof.
  split; [reflexivity|]. split; [reflexivity|].
  exact (proj1 (loader_text_is_verbatim "es2019" None
                  "/it's/main.js" "/it's/main.legacy.js"
                  eq_refl eq_refl)).
Defined.

(** C10 fails as stated: a backslash followed by [n] in a URL comes out
    as a line feed, and a line feed followed by a blank in a URL changes
    the indentation that is taken off every line. *)
Lemma loader_text_unescapes_newline :
  let escaped := "/a" ++ String Js.BSL "n/main.js" in
  let broken := "/a" ++ Js.lf ++ " /main.js" in
  createScriptFactory "es2019" escaped "/main.legacy.js"
  = loader_text "try{} catch{}" ("/a" ++ Js.lf ++ "/main.js")
      "/main.legacy.js"
  /\ createScriptFactory "es2019" escaped "/main.legacy.js"
     <> loader_text "try{} catch{}" escaped "/main.legacy.js"
  /\ createScriptFactory "es2019" broken "/main.legacy.js"
     <> loader_text "try{} catch{}" broken "/main.legacy.js".
Proof.
  cbv zeta. split; [vm_compute; reflexivity|].
  split; intros H; vm_compute in H; discriminate H.
Qed.

(* --------------------------------------------------------------------- *)
(** ** The loader in the browser                                          *)
(* --------------------------------------------------------------------- *)

Lemma requested_app (doc : Document) (script : Element.t) :
  requested (appendChild doc script)
  = (requested doc
     ++ match Element.src script with Some u => [u] | None => [] end)%list.
Proof.
  unfold requested, appendChild; simpl.
  rewrite flat_map_app. simpl. now rewrite app_nil_r.
Qed.

Lemma loader_try_result (b : Browser) (probe modern legacy : string) :
  loader_try b probe modern legacy createElement
  = (if hasNoModule b && negb (eval_throws b probe)
     then modern_script modern else legacy_script legacy, Normal).
Proof.
  unfold loader_try, try_catch, seq, module_test, eval_probe.
  destruct (hasNoModule b); simpl; [|reflexivity].
  destruct (eval_throws b probe); reflexivity.
Qed.

Lemma run_loader_appends
    (b : Browser) (probe modern legacy : string) (doc : Document) :
  run_loader b probe modern legacy doc
  = appendChild doc
      (if hasNoModule b && negb (eval_throws b probe)
       then modern_script modern else legacy_script legacy).
Proof. unfold run_loader. now rewrite loader_try_result. Qed.

Lemma literal_inv (c : ascii) (v : string) :
  literal (String c v) = true ->
  Ascii.eqb c "'"%char = false
  /\ (Ascii.eqb c Js.BSL || Ascii.eqb c Js.LF || Ascii.eqb c "013"%char)
     = false
  /\ literal v = true.
Proof.
  cbn [literal]. intros H. apply andb_true_iff in H as [Hc Hv].
  apply negb_true_iff in Hc.
  rewrite <- !orb_assoc in Hc. apply orb_false_iff in Hc as [H1 H2].
  rewrite <- !orb_assoc. auto.
Qed.

Lemma read_literal_app (v rest : string) :
  literal v = true ->
  read_literal (v ++ String "'" rest) = Some (v, rest).
Proof.
  induction v as [|c v IH]; [reflexivity|]. intros H.
  apply literal_inv in H as (H1 & H2 & Hv).
  cbn [append read_literal]. now rewrite H1, H2, (IH Hv).
Qed.

Lemma literal_verbatim (v : string) : literal v = true -> verbatim v = true.
Proof.
  unfold verbatim. intros H. apply andb_true_iff. split.
  - induction v as [|c v IH]; [reflexivity|].
    apply literal_inv in H as (_ & H2 & Hv).
    apply orb_false_iff in H2 as [H2 _]. apply orb_false_iff in H2 as [_ H2].
    cbn [no_lf]. now rewrite H2, (IH Hv).
  - apply negb_true_iff.
    induction v as [|c v IH]; [reflexivity|].
    apply literal_inv in H as (_ & H2 & Hv).
    apply orb_false_iff in H2 as [H2 _]. apply orb_false_iff in H2 as [H2 _].
    destruct v as [|d v]; [reflexivity|].
    change (has_escaped_n (String c (String d v)))
      with ((Ascii.eqb c Js.BSL && Ascii.eqb d "n"%char)
            || has_escaped_n (String d v)).
    now rewrite H2, (IH Hv).
Qed.

Lemma read_loader_text (probe modern legacy : string) :
  literal probe = true -> literal modern = true -> literal legacy = true ->
  read_loader (loader_text probe modern legacy)
  = Some (probe, modern, legacy).
Proof.
  intros Hp Hm Hl.
  assert (E : loader_text probe modern legacy
              = loader_head ++ probe
                ++ String "'" (loader_after_probe ++ modern
                ++ String "'" (loader_after_modern ++ legacy
                ++ String "'" loader_tail))).
  { unfold loader_text, loader_head, loader_after_probe,
      loader_after_modern, loader_tail.
    rewrite !append_assoc. reflexivity. }
  rewrite E. unfold read_loader.
  rewrite (strip_prefix_app loader_head), (read_literal_app _ _ Hp).
  rewrite (strip_prefix_app loader_after_probe), (read_literal_app _ _ Hm).
  rewrite (strip_prefix_app loader_after_modern), (read_literal_app _ _ Hl).
  now rewrite String.eqb_refl.
Qed.

Lemma registered_probes_literal (target : string) :
  literal (Js.to_string (syntaxTests target)) = true.
Proof.
  unfold syntaxTests.
  repeat match goal with
         | |- context [String.eqb target ?k] => destruct (String.eqb target k)
         end; reflexivity.
Qed.

(** The text [createScriptFactory] generates is read and run as the loader
    it was generated for. *)
Lemma evaluate_generated (b : Browser) (target modern legacy : string)
    (doc : Document) :
  literal modern = true -> literal legacy = true ->
  evaluate b (createScriptFactory target modern legacy) doc
  = Some (run_loader b (Js.to_string (syntaxTests target)) modern legacy doc).
Proof.
  intros Hm Hl. unfold evaluate, createScriptFactory. cbv zeta.
  rewrite loader_template_verbatim;
    [|apply registered_probes_verbatim
     |now apply literal_verbatim|now apply literal_verbatim].
  rewrite read_loader_text;
    [reflexivity|apply registered_probes_literal|exact Hm|exact Hl].
Qed.




(** The scenario of the es2019 probe: where evaluating it throws, the
    legacy URL is the one requested. *)
Example es2019_probe_throws_selects_legacy :
  let old := {| hasNoModule := true; runs := fun _ => false |} in
  syntaxTests "es2019" = Some "try{} catch{}"
  /\ option_map requested
       (evaluate old
          (createScriptFactory "es2019" "/assets/main.js"
             "/assets/main.legacy.js")
          {| head := [] |})
     = Some ["/assets/main.legacy.js"].
Proof. split; vm_compute; reflexivity. Qed.

(** The levels below es2018 have no probe. *)
Example levels_below_es2018 :
  map syntaxTests ["es5"; "es6"; "es2015"; "es2016"; "es2017"]
  = [None; None; None; None; None].
Proof. reflexivity. Qed.

(** C7. A target without a registered probe makes the probe step a no-op:
    the text evaluated is the word [undefined], which throws in no browser,
    and the [noModule] test alone selects the bundle. *)
Theorem unregistered_target_probe_is_noop
    (b : Browser) (target modern legacy : string) (doc : Document) :
  syntaxTests target = None ->
  let probe := Js.to_string (syntaxTests target) in
  let doc' := run_loader b probe modern legacy doc in
  probe = "undefined"
  /\ eval_probe b probe createElement = (createElement, Normal)
  /\ head doc'
     = (head doc
        ++ [if hasNoModule b then modern_script modern
            else legacy_script legacy])%list
  /\ requested doc'
     = (requested doc ++ [if hasNoModule b then modern else legacy])%list
  /\ (literal modern = true -> literal legacy = true ->
      createScriptFactory target modern legacy
      = loader_text "undefined" modern legacy
      /\ evaluate b (createScriptFactory target modern legacy) doc
         = Some doc').
Proof.
  intros Hnone. cbv zeta.
  split; [now rewrite Hnone|].
  split; [now rewrite Hnone|].
  rewrite run_loader_appends, requested_app.
  assert (E : eval_throws b (Js.to_string (syntaxTests target)) = false)
    by now rewrite Hnone.
  rewrite E, andb_true_r.
  split; [reflexivity|].
  split; [destruct (hasNoModule b); reflexivity|].
  intros Hm Hl. split.
  - unfold createScriptFactory. cbv zeta. rewrite Hnone.
    apply (loader_template_verbatim None);
      [reflexivity|now apply literal_verbatim|now apply literal_verbatim].
  - rewrite (evaluate_generated _ _ _ _ _ Hm Hl), run_loader_appends.
    now rewrite E, andb_true_r.
Qed.

Lemma unregistered_target_probe_is_noop_es2017 :
  syntaxTests "es2017" = None
  /\ (let b := {| hasNoModule := true; runs := fun _ => false |} in
      let doc := {| head := [] |} in
      let doc' := run_loader b "undefined" "/m.js" "/m.legacy.js" doc in
      head doc' = [modern_script "/m.js"]
      /\ requested doc' = ["/m.js"]).
Proof.
  split; [reflexivity|]. cbv zeta.
  pose proof (unregistered_target_probe_is_noop
                {| hasNoModule := true; runs := fun _ => false |}
                "es2017" "/m.js" "/m.legacy.js" {| head := [] |} eq_refl)
    as (_ & _ & Hh & Hr & _).
  split; [exact Hh|exact Hr].
Defined.

(* ===================================================================== *)
(** * Part III: further properties                                        *)
(* ===================================================================== *)

(* --------------------------------------------------------------------- *)
(** ** More on the name of the legacy artifact                            *)
(* --------------------------------------------------------------------- *)

Lemma ends_with_js_app (stem : string) : ends_with_js (stem ++ ".js") = true.
Proof.
  induction stem as [|c stem IH]; [reflexivity|].
  cbn [append ends_with_js]. rewrite IH. apply orb_true_r.
Qed.

Lemma ends_with_js_inv (name : string) :
  ends_with_js name = true -> exists stem, name = stem ++ ".js".
Proof.
  induction name as [|c name IH]; [discriminate|].
  cbn [ends_with_js]. intros H. apply orb_true_iff in H as [H|H].
  - apply String.eqb_eq in H. exists "". now rewrite H.
  - destruct (IH H) as [stem ->]. now exists (String c stem).
Qed.

Lemma legacyFileName_other (name : string) :
  ends_with_js name = false -> legacyFileName name = name.
Proof.
  induction name as [|c name IH]; [reflexivity|].
  cbn [ends_with_js legacyFileName]. intros H.
  apply orb_false_iff in H as [H1 H2]. now rewrite H1, (IH H2).
Qed.

(** X1. The derived name, in full: a name that ends in [.js] has its last
    [.js] turned into [.legacy.js] and nothing else touched; every other
    name, the empty one and one that ends in [.JS] or [.mjs] included,
    comes back as it is. *)
Theorem legacy_name_by_cases (name : string) :
  if ends_with_js name
  then exists stem,
         name = stem ++ ".js"
         /\ legacyFileName name = stem ++ ".legacy.js"
         /\ String.length (legacyFileName name) = String.length name + 7
  else legacyFileName name = name.
Proof.
  destruct (ends_with_js name) eqn:E.
  - destruct (ends_with_js_inv _ E) as [stem ->].
    exists stem. rewrite legacyFileName_js.
    repeat split. rewrite !length_append. simpl. lia.
  - now apply legacyFileName_other.
Qed.

Lemma append_inv_tail (a b c : string) : a ++ c = b ++ c -> a = b.
Proof.
  revert b. induction a as [|x a IH]; intros b H.
  - destruct b as [|y b]; [reflexivity|].
    apply (f_equal String.length) in H. simpl in H.
    rewrite length_append in H. lia.
  - destruct b as [|y b].
    + apply (f_equal String.length) in H. simpl in H.
      rewrite length_append in H. lia.
    + simpl in H. injection H as -> H. now rewrite (IH _ H).
Qed.

Lemma legacyFileName_injective (a b : string) :
  legacyFileName a = legacyFileName b -> a = b.
Proof.
  intros H.
  destruct (ends_with_js a) eqn:Ea; destruct (ends_with_js b) eqn:Eb.
  - destruct (ends_with_js_inv _ Ea) as [sa ->].
    destruct (ends_with_js_inv _ Eb) as [sb ->].
    rewrite !legacyFileName_js in H.
    apply (append_inv_tail sa sb ".legacy.js") in H. now rewrite H.
  - destruct (ends_with_js_inv _ Ea) as [sa ->].
    rewrite legacyFileName_js, (legacyFileName_other _ Eb) in H.
    rewrite <- H in Eb.
    change (sa ++ ".legacy.js") with (sa ++ ".legacy" ++ ".js") in Eb.
    rewrite <- append_assoc, ends_with_js_app in Eb. discriminate.
  - destruct (ends_with_js_inv _ Eb) as [sb ->].
    rewrite legacyFileName_js, (legacyFileName_other _ Ea) in H.
    rewrite H in Ea.
    change (sb ++ ".legacy.js") with (sb ++ ".legacy" ++ ".js") in Ea.
    rewrite <- append_assoc, ends_with_js_app in Ea. discriminate.
  - now rewrite (legacyFileName_other _ Ea), (legacyFileName_other _ Eb) in H.
Qed.

(** The artifact of an entry whose name is a plain name bears the derived
    name. *)
Lemma legacy_artifact_name_plain (cwd : string) (mainChunk : Chunk.t)
    (viteConfig : BuildConfig) :
  plain_name (Chunk.fileName mainChunk) = true ->
  legacy_artifact_name cwd mainChunk viteConfig
  = legacyFileName (Chunk.fileName mainChunk).
Proof.
  intros H. unfold legacy_artifact_name, legacyPath.
  apply (basename_resolve cwd
           [root viteConfig; outDir viteConfig; assetsDir viteConfig]).
  destruct (ends_with_js (Chunk.fileName mainChunk)) eqn:E.
  - destruct (ends_with_js_inv _ E) as [stem Hstem].
    rewrite Hstem in *. rewrite legacyFileName_js.
    now apply plain_name_legacy.
  - now rewrite (legacyFileName_other _ E).
Qed.

(** X2. For entry chunks whose file names are plain names, without a
    directory, the file name of the legacy artifact tells the entry: two
    such entries with different names never get the same artifact name. *)
Theorem legacy_name_injective
    (cwd : string) (viteConfig : BuildConfig) (a b : Chunk.t) :
  plain_name (Chunk.fileName a) = true ->
  plain_name (Chunk.fileName b) = true ->
  legacy_artifact_name cwd a viteConfig
  = legacy_artifact_name cwd b viteConfig ->
  Chunk.fileName a = Chunk.fileName b.
Proof.
  intros Ha Hb H.
  rewrite (legacy_artifact_name_plain _ _ _ Ha) in H.
  rewrite (legacy_artifact_name_plain _ _ _ Hb) in H.
  now apply legacyFileName_injective.
Qed.

Lemma legacy_name_injective_example :
  Chunk.fileName (Chunk.make "main.js" "export {}" None true)
  = Chunk.fileName (Chunk.make ("main" ++ ".js") "" None false).
Proof.
  exact (legacy_name_injective "/home/dev"
           {| root := "/app"; outDir := "dist"; assetsDir := "_assets";
              sourcemap := false; minify := MinifyTrue; terserOption := "";
              write := true; esbuildTarget := "es2019" |}
           (Chunk.make "main.js" "export {}" None true)
           (Chunk.make ("main" ++ ".js") "" None false)
           eq_refl eq_refl eq_refl).
Defined.

(* --------------------------------------------------------------------- *)
(** ** The hook, its bundle and its engines                               *)
(* --------------------------------------------------------------------- *)

Section Engines.

Variable cwd : string.

Lemma createLegacyChunk_transformed
    (transformAsync : string -> BabelOptions -> Result (option BabelFileResult))
    (rollup_generate : RollupJob -> Result Chunk.t)
    c viteConfig babelEnv t :
  transformAsync (Chunk.code c) (babelOptions c viteConfig babelEnv)
  = ret (Some t) ->
  createLegacyChunk cwd transformAsync rollup_generate
    (Some c) viteConfig babelEnv
  = rollup_generate (legacy_job cwd c viteConfig t).
Proof.
  intros H. unfold createLegacyChunk. rewrite H. reflexivity.
Qed.

(** X3. The hook reads nothing of the bundle but its first entry chunk:
    with assets and chunks that are not entries before it, and anything
    behind it, further entry chunks included, it ends as it does for the
    bundle of that chunk alone. *)
Theorem hook_reads_first_entry_only
    (transformAsync : string -> BabelOptions -> Result (option BabelFileResult))
    (rollup_generate : RollupJob -> Result Chunk.t)
    config viteConfig (before after : list Output) (c : Chunk.t) :
  forallb (fun o => negb (is_entry_chunk o)) before = true ->
  Chunk.isEntry c = true ->
  find_mainChunk (before ++ OutChunk c :: after) = Some c
  /\ generateBundle cwd transformAsync rollup_generate config viteConfig
       (before ++ OutChunk c :: after)
     = generateBundle cwd transformAsync rollup_generate config viteConfig
         [OutChunk c].
Proof.
  intros Hb Hc.
  pose proof (find_mainChunk_first before after c Hb Hc) as E.
  pose proof (find_mainChunk_first [] [] c eq_refl Hc) as E1.
  split; [exact E|].
  cbn [app] in E1. unfold generateBundle. now rewrite E, E1.
Qed.

(** X4. A rejection of Babel, and a rejection of Rollup after Babel gave a
    result, come out of the synthesis and of the hook as they are, and the
    hook installs nothing. *)
Theorem engine_rejections_abort
    (transformAsync : string -> BabelOptions -> Result (option BabelFileResult))
    (rollup_generate : RollupJob -> Result Chunk.t)
    config viteConfig bundle c (e : Error) :
  find_mainChunk bundle = Some c ->
  transformAsync (Chunk.code c)
    (babelOptions c viteConfig (getBabelEnv config)) = throw e
  \/ (exists t,
        transformAsync (Chunk.code c)
          (babelOptions c viteConfig (getBabelEnv config)) = ret (Some t)
        /\ rollup_generate (legacy_job cwd c viteConfig t) = throw e) ->
  createLegacyChunk cwd transformAsync rollup_generate
    (Some c) viteConfig (getBabelEnv config) = throw e
  /\ generateBundle cwd transformAsync rollup_generate
       config viteConfig bundle = throw e
  /\ (forall sp st,
        generateBundle cwd transformAsync rollup_generate
          config viteConfig bundle <> ret (sp, st)).
Proof.
  intros Hfind H.
  assert (Hs : createLegacyChunk cwd transformAsync rollup_generate
                 (Some c) viteConfig (getBabelEnv config) = throw e).
  { destruct H as [H|(t & Ht & Hr)].
    - unfold createLegacyChunk. rewrite H. reflexivity.
    - now rewrite (createLegacyChunk_transformed _ _ _ _ _ _ Ht). }
  assert (Hg : generateBundle cwd transformAsync rollup_generate
                 config viteConfig bundle = throw e).
  { unfold generateBundle. rewrite Hfind. cbv zeta. rewrite Hs.
    reflexivity. }
  split; [exact Hs|]. split; [exact Hg|].
  intros sp st E. rewrite Hg in E. discriminate.
Qed.

(** X5. The hook consults its engines on the entry chunk only: Babel once,
    on the code of the entry chunk with the options made for it, and Rollup
    once, on the job made from the result of Babel, when there is one.  Two
    pairs of engines that agree there make the hook end in the same way,
    whatever they do elsewhere. *)
Theorem engines_are_consulted_on_the_entry_only
    (babel1 babel2 : string -> BabelOptions -> Result (option BabelFileResult))
    (rollup1 rollup2 : RollupJob -> Result Chunk.t)
    config viteConfig bundle :
  (forall c,
     find_mainChunk bundle = Some c ->
     babel1 (Chunk.code c) (babelOptions c viteConfig (getBabelEnv config))
     = babel2 (Chunk.code c)
         (babelOptions c viteConfig (getBabelEnv config))) ->
  (forall c t,
     find_mainChunk bundle = Some c ->
     babel1 (Chunk.code c) (babelOptions c viteConfig (getBabelEnv config))
     = ret (Some t) ->
     rollup1 (legacy_job cwd c viteConfig t)
     = rollup2 (legacy_job cwd c viteConfig t)) ->
  generateBundle cwd babel1 rollup1 config viteConfig bundle
  = generateBundle cwd babel2 rollup2 config viteConfig bundle.
Proof.
  intros Hb Hr. unfold generateBundle. cbv zeta.
  destruct (find_mainChunk bundle) as [c|] eqn:E; [|reflexivity].
  unfold createLegacyChunk. rewrite <- (Hb c eq_refl).
  destruct (babel1 (Chunk.code c)
              (babelOptions c viteConfig (getBabelEnv config)))
    as [e|[t|]] eqn:Et; [reflexivity| |reflexivity].
  pose proof (Hr c t eq_refl Et) as H. unfold legacy_job in H.
  cbv zeta in H. cbn [bind]. now rewrite H.
Qed.

(** X6. A build that goes through: with an entry chunk in the bundle, a
    result of Babel for it and a chunk generated by Rollup, the hook
    installs the two accessors, both empty.  Whatever the order in which
    the build then writes its HTML and its assets, the HTML read back is
    the text with the tags of the entry chunk replaced by the loader, and
    the assets read back are the ones written followed by the legacy
    chunk. *)
Theorem successful_build_installs_both_overrides
    (transformAsync : string -> BabelOptions -> Result (option BabelFileResult))
    (rollup_generate : RollupJob -> Result Chunk.t)
    config viteConfig bundle (c : Chunk.t) (t : BabelFileResult)
    (legacy : Chunk.t) :
  find_mainChunk bundle = Some c ->
  transformAsync (Chunk.code c)
    (babelOptions c viteConfig (getBabelEnv config)) = ret (Some t) ->
  rollup_generate (legacy_job cwd c viteConfig t) = ret legacy ->
  let sp := installed viteConfig c legacy in
  generateBundle cwd transformAsync rollup_generate config viteConfig bundle
  = ret (sp, empty_slots)
  /\ get_html empty_slots = None
  /\ get_assets empty_slots = None
  /\ (forall content modernAssets,
        let html_first :=
          set_assets sp modernAssets (set_html cwd sp content empty_slots) in
        let assets_first :=
          set_html cwd sp content (set_assets sp modernAssets empty_slots) in
        html_first = assets_first
        /\ get_assets html_first
           = Some (modernAssets ++ [asViteAsset legacy])%list
        /\ exists h,
             well_cut h = true /\ render h = content
             /\ get_html html_first = Some (spliced cwd sp h)).
Proof.
  intros Hfind Ht Hr. cbv zeta.
  split.
  { rewrite (generateBundle_entry _ _ _ _ _ _ c Hfind).
    rewrite (createLegacyChunk_transformed _ _ _ _ _ _ Ht), Hr.
    reflexivity. }
  split; [reflexivity|]. split; [reflexivity|].
  intros content modernAssets.
  split; [reflexivity|]. split; [reflexivity|].
  destruct (cut_exists content) as (h & Hw & Hrender).
  exists h. split; [exact Hw|]. split; [exact Hrender|].
  unfold get_html, set_assets, set_html. cbn [html].
  now rewrite <- Hrender, replace_render.
Qed.

End Engines.

Lemma hook_reads_first_entry_only_example :
  let babel := fun (_ : string) (_ : BabelOptions) =>
                 ret (Some {| babel_code := "var a"; babel_map := None |}) in
  let rollup := fun job : RollupJob =>
                  ret (Chunk.make "main.legacy.js" (load_code job) None true)
  in
  let viteConfig :=
    {| root := "/app"; outDir := "dist"; assetsDir := "assets";
       sourcemap := false; minify := MinifyTerser; terserOption := "";
       write := true; esbuildTarget := "es2019" |} in
  let config := {| targets := None; ignoreBrowserslistConfig := None |} in
  let first := Chunk.make "main.js" "1" None true in
  let second := Chunk.make "other.js" "2" None true in
  let before := [OutAsset "style.css" "";
                 OutChunk (Chunk.make "vendor.js" "" None false)] in
  find_mainChunk (before ++ OutChunk first :: [OutChunk second]) = Some first
  /\ generateBundle "/app" babel rollup config viteConfig
       (before ++ OutChunk first :: [OutChunk second])
     = generateBundle "/app" babel rollup config viteConfig
         [OutChunk first].
Proof.
  cbv zeta.
  apply (hook_reads_first_entry_only "/app"
           (fun _ _ => ret (Some {| babel_code := "var a";
                                    babel_map := None |}))
           (fun job => ret (Chunk.make "main.legacy.js" (load_code job)
                              None true))
           {| targets := None; ignoreBrowserslistConfig := None |}
           {| root := "/app"; outDir := "dist"; assetsDir := "assets";
              sourcemap := false; minify := MinifyTerser; terserOption := "";
              write := true; esbuildTarget := "es2019" |}
           [OutAsset "style.css" "";
            OutChunk (Chunk.make "vendor.js" "" None false)]
           [OutChunk (Chunk.make "other.js" "2" None true)]
           (Chunk.make "main.js" "1" None true)); reflexivity.
Defined.

Lemma engine_rejections_abort_example :
  let babel := fun (_ : string) (_ : BabelOptions) =>
                 ret (Some {| babel_code := "var a"; babel_map := None |}) in
  let rollup := fun _ : RollupJob =>
                  throw (A := Chunk.t)
                    (EngineError "Could not resolve core-js") in
  let viteConfig :=
    {| root := "/app"; outDir := "dist"; assetsDir := "assets";
       sourcemap := false; minify := MinifyTerser; terserOption := "";
       write := true; esbuildTarget := "es2019" |} in
  let config := {| targets := None; ignoreBrowserslistConfig := None |} in
  let c := Chunk.make "main.js" "export {}" None true in
  let bundle := [OutAsset "style.css" "body{}"; OutChunk c] in
  createLegacyChunk "/app" babel rollup (Some c) viteConfig
    (getBabelEnv config)
  = throw (EngineError "Could not resolve core-js")
  /\ generateBundle "/app" babel rollup config viteConfig bundle
     = throw (EngineError "Could not resolve core-js")
  /\ (forall sp st,
        generateBundle "/app" babel rollup config viteConfig bundle
        <> ret (sp, st)).
Proof.
  cbv zeta.
  apply (engine_rejections_abort "/app"
           (fun _ _ => ret (Some {| babel_code := "var a";
                                    babel_map := None |}))
           (fun _ => throw (EngineError "Could not resolve core-js"))
           {| targets := None; ignoreBrowserslistConfig := None |}
           {| root := "/app"; outDir := "dist"; assetsDir := "assets";
              sourcemap := false; minify := MinifyTerser; terserOption := "";
              write := true; esbuildTarget := "es2019" |}
           [OutAsset "style.css" "body{}";
            OutChunk (Chunk.make "main.js" "export {}" None true)]
           (Chunk.make "main.js" "export {}" None true)
           (EngineError "Could not resolve core-js")).
  - reflexivity.
  - right. exists {| babel_code := "var a"; babel_map := None |}.
    split; reflexivity.
Defined.

Lemma engines_are_consulted_on_the_entry_only_example :
  let result := {| babel_code := "var a"; babel_map := None |} in
  let babel1 := fun (code : string) (_ : BabelOptions) =>
                  if String.eqb code "export {}" then ret (Some result)
                  else throw (EngineError "unexpected input") in
  let babel2 := fun (_ : string) (_ : BabelOptions) => ret (Some result) in
  let rollup1 := fun job : RollupJob =>
                   if String.eqb (load_code job) "var a"
                   then ret (Chunk.make "main.legacy.js" "a" None true)
                   else throw (EngineError "unexpected job") in
  let rollup2 := fun _ : RollupJob =>
                   ret (Chunk.make "main.legacy.js" "a" None true) in
  let viteConfig :=
    {| root := "/app"; outDir := "dist"; assetsDir := "assets";
       sourcemap := false; minify := MinifyTerser; terserOption := "";
       write := true; esbuildTarget := "es2019" |} in
  let config := {| targets := None; ignoreBrowserslistConfig := None |} in
  let bundle := [OutAsset "style.css" "body{}";
                 OutChunk (Chunk.make "main.js" "export {}" None true)] in
  generateBundle "/app" babel1 rollup1 config viteConfig bundle
  = generateBundle "/app" babel2 rollup2 config viteConfig bundle.
Proof.
  cbv zeta.
  apply (engines_are_consulted_on_the_entry_only "/app"
           (fun code _ =>
              if String.eqb code "export {}"
              then ret (Some {| babel_code := "var a"; babel_map := None |})
              else throw (EngineError "unexpected input"))
           (fun _ _ => ret (Some {| babel_code := "var a";
                                    babel_map := None |}))
           (fun job =>
              if String.eqb (load_code job) "var a"
              then ret (Chunk.make "main.legacy.js" "a" None true)
              else throw (EngineError "unexpected job"))
           (fun _ => ret (Chunk.make "main.legacy.js" "a" None true))
           {| targets := None; ignoreBrowserslistConfig := None |}
           {| root := "/app"; outDir := "dist"; assetsDir := "assets";
              sourcemap := false; minify := MinifyTerser; terserOption := "";
              write := true; esbuildTarget := "es2019" |}
           [OutAsset "style.css" "body{}";
            OutChunk (Chunk.make "main.js" "export {}" None true)]).
  - intros c H. vm_compute in H. injection H as <-. reflexivity.
  - intros c t H Ht. vm_compute in H. injection H as <-.
    vm_compute in Ht. injection Ht as <-. reflexivity.
Defined.

Lemma successful_build_installs_both_overrides_example :
  let result := {| babel_code := "var a"; babel_map := None |} in
  let babel := fun (_ : string) (_ : BabelOptions) => ret (Some result) in
  let legacy := Chunk.make "main.legacy.js" "var a" None true in
  let rollup := fun _ : RollupJob => ret legacy in
  let viteConfig :=
    {| root := "/app"; outDir := "dist"; assetsDir := "assets";
       sourcemap := false; minify := MinifyTerser; terserOption := "";
       write := true; esbuildTarget := "es2019" |} in
  let config := {| targets := None; ignoreBrowserslistConfig := None |} in
  let c := Chunk.make "main.js" "export {}" None true in
  let bundle := [OutAsset "style.css" "body{}"; OutChunk c] in
  generateBundle "/app" babel rollup config viteConfig bundle
  = ret (installed viteConfig c legacy, empty_slots).
Proof.
  cbv zeta.
  apply (successful_build_installs_both_overrides "/app"
           (fun _ _ => ret (Some {| babel_code := "var a";
                                    babel_map := None |}))
           (fun _ => ret (Chunk.make "main.legacy.js" "var a" None true))
           {| targets := None; ignoreBrowserslistConfig := None |}
           {| root := "/app"; outDir := "dist"; assetsDir := "assets";
              sourcemap := false; minify := MinifyTerser; terserOption := "";
              write := true; esbuildTarget := "es2019" |}
           [OutAsset "style.css" "body{}";
            OutChunk (Chunk.make "main.js" "export {}" None true)]
           (Chunk.make "main.js" "export {}" None true)
           {| babel_code := "var a"; babel_map := None |}
           (Chunk.make "main.legacy.js" "var a" None true)
           eq_refl eq_refl eq_refl).
Defined.

(* --------------------------------------------------------------------- *)
(** ** More on the paths                                                  *)
(* --------------------------------------------------------------------- *)

Lemma resolve_loop_absolute_cwd (cwd : string) (rev_args : list string)
    (acc : string) :
  Path.isAbsolute cwd = true ->
  snd (Path.resolve_loop cwd rev_args acc) = true.
Proof.
  intros H. revert acc.
  induction rev_args as [|p rest IH]; intros acc; cbn [Path.resolve_loop].
  - destruct (String.eqb_spec cwd "") as [E|_]; [now rewrite E in H|exact H].
  - destruct (String.eqb p ""); [apply IH|].
    destruct (Path.isAbsolute p); [reflexivity|apply IH].
Qed.

Lemma resolve_loop_absolute_arg (cwd1 cwd2 : string)
    (rev_args : list string) (acc : string) :
  existsb Path.isAbsolute rev_args = true ->
  Path.resolve_loop cwd1 rev_args acc = Path.resolve_loop cwd2 rev_args acc
  /\ snd (Path.resolve_loop cwd1 rev_args acc) = true.
Proof.
  revert acc. induction rev_args as [|p rest IH]; intros acc H;
    [discriminate|].
  cbn [existsb] in H. cbn [Path.resolve_loop].
  destruct (String.eqb_spec p "") as [->|_].
  - cbn [Path.isAbsolute orb] in H. now apply IH.
  - destruct (Path.isAbsolute p); [auto|]. now apply IH.
Qed.

Lemma resolve_absolute (cwd : string) (args : list string) :
  snd (Path.resolve_loop cwd (rev args) "") = true ->
  Path.isAbsolute (Path.resolve cwd args) = true.
Proof.
  unfold Path.resolve.
  destruct (Path.resolve_loop cwd (rev args) "") as [p abs]. simpl.
  intros ->. reflexivity.
Qed.

Lemma legacyPath_absolute_cwd
    (cwd : string) (mainChunk : Chunk.t) (viteConfig : BuildConfig) :
  Path.isAbsolute cwd = true ->
  Path.isAbsolute (legacyPath cwd mainChunk viteConfig) = true.
Proof.
  intros H. unfold legacyPath.
  apply resolve_absolute. now apply resolve_loop_absolute_cwd.
Qed.

(** X7. The file the legacy chunk is generated for is an absolute path as
    soon as the working directory or the root of the project is one; with
    an absolute root it is the same file from whatever directory the build
    is started. *)
Theorem legacy_path_is_absolute
    (cwd cwd' : string) (mainChunk : Chunk.t) (viteConfig : BuildConfig) :
  (Path.isAbsolute cwd = true ->
   Path.isAbsolute (legacyPath cwd mainChunk viteConfig) = true)
  /\ (Path.isAbsolute (root viteConfig) = true ->
      Path.isAbsolute (legacyPath cwd mainChunk viteConfig) = true
      /\ legacyPath cwd mainChunk viteConfig
         = legacyPath cwd' mainChunk viteConfig).
Proof.
  split; [apply legacyPath_absolute_cwd|].
  unfold legacyPath. intros H.
  set (args := [root viteConfig; outDir viteConfig; assetsDir viteConfig;
                legacyFileName (Chunk.fileName mainChunk)]).
  assert (Hex : existsb Path.isAbsolute (rev args) = true).
  { apply existsb_exists. exists (root viteConfig). split; [|exact H].
    apply in_rev. rewrite rev_involutive. subst args. now left. }
  destruct (resolve_loop_absolute_arg cwd cwd' (rev args) "" Hex)
    as [Heq Habs].
  split; [now apply resolve_absolute|].
  unfold Path.resolve. now rewrite Heq.
Qed.

(* --------------------------------------------------------------------- *)
(** ** The URL of the legacy bundle                                       *)
(* --------------------------------------------------------------------- *)

Lemma split_join_slash (l : list string) :
  l <> [] -> forallb no_slash l = true ->
  Js.split Js.SLASH (Js.join "/" l) = l.
Proof.
  induction l as [|x l IH]; [congruence|]. intros _ H.
  cbn [forallb] in H. apply andb_true_iff in H as [Hx Hl].
  destruct l as [|y l].
  - cbn [Js.join]. now apply split_no_slash.
  - change (Js.join "/" (x :: y :: l))
      with (x ++ "/" ++ Js.join "/" (y :: l)).
    rewrite split_app_slash, (split_no_slash _ Hx), IH;
      [reflexivity|discriminate|exact Hl].
Qed.

Lemma plain_names_no_slash (l : list string) :
  plain_names l = true -> forallb no_slash l = true.
Proof.
  unfold plain_names. induction l as [|x l IH]; [reflexivity|].
  cbn [forallb]. intros H. apply andb_true_iff in H as [Hx Hl].
  apply plain_name_inv in Hx as (Hs & _). now rewrite Hs, IH.
Qed.

Lemma normalize_step_plain (allow : bool) (stack : list string)
    (name : string) :
  plain_name name = true ->
  Path.normalize_step allow stack name = name :: stack.
Proof.
  intros H. apply plain_name_inv in H as (_ & _ & H1 & H2).
  unfold Path.normalize_step. now rewrite H1, H2.
Qed.

Lemma normalize_plain_names (allow : bool) (l stack : list string) :
  plain_names l = true ->
  fold_left (Path.normalize_step allow) l stack = (rev l ++ stack)%list.
Proof.
  unfold plain_names. revert stack.
  induction l as [|x l IH]; intros stack H; [reflexivity|].
  cbn [forallb] in H. apply andb_true_iff in H as [Hx Hl].
  cbn [fold_left rev]. rewrite (normalize_step_plain _ _ _ Hx), (IH _ Hl).
  now rewrite <- app_assoc.
Qed.

(** The segments of a joined path go on the stack in their order. *)
Lemma normalize_join (allow : bool) (l stack : list string) :
  plain_names l = true ->
  fold_left (Path.normalize_step allow)
    (Js.split Js.SLASH (Js.join "/" l)) stack
  = (rev l ++ stack)%list.
Proof.
  intros H. destruct l as [|x l]; [reflexivity|].
  rewrite split_join_slash;
    [now apply normalize_plain_names|discriminate|
     now apply plain_names_no_slash].
Qed.

Lemma plain_name_relative (name rest : string) :
  plain_name name = true ->
  String.eqb (name ++ rest) "" = false
  /\ Path.isAbsolute (name ++ rest) = false.
Proof.
  intros H. apply plain_name_inv in H as (Hs & Hne & _).
  destruct name as [|c name]; [congruence|].
  cbn [no_slash] in Hs. apply andb_true_iff in Hs as [Hc _].
  apply negb_true_iff in Hc. cbn [append Path.isAbsolute]. now split.
Qed.

(** What the steps for the last two arguments of the call leave on the
    stack: the name of the module is replaced by the name of the legacy
    chunk. *)
Lemma normalize_sibling (allow : bool) (stack : list string)
    (name legacy : string) :
  plain_name name = true -> plain_name legacy = true ->
  fold_left (Path.normalize_step allow)
    (Js.split Js.SLASH (".." ++ "/" ++ legacy ++ "/" ++ ""))
    (name :: stack)
  = legacy :: stack.
Proof.
  intros Hn Hl.
  pose proof (plain_name_inv _ Hl) as (Hs & _).
  pose proof (plain_name_inv _ Hn) as (_ & _ & _ & Hdd).
  rewrite !split_app_slash, (split_no_slash _ Hs).
  change (Js.split Js.SLASH "..") with [".."].
  change (Js.split Js.SLASH "") with [""].
  cbn [app fold_left].
  unfold Path.normalize_step at 3. cbn [String.eqb Ascii.eqb Bool.eqb orb].
  rewrite Hdd.
  rewrite (normalize_step_plain _ _ _ Hl). reflexivity.
Qed.

Lemma resolve_rooted_sibling (cwd : string) (dirs : list string)
    (name legacy : string) :
  plain_names dirs = true -> plain_name name = true ->
  plain_name legacy = true ->
  Path.resolve cwd [rooted (dirs ++ [name]); ".."; legacy]
  = rooted (dirs ++ [legacy]).
Proof.
  intros Hd Hn Hl. unfold Path.resolve, rooted.
  cbn [rev app Path.resolve_loop].
  destruct (plain_name_relative legacy "" Hl) as [E1 E2].
  rewrite append_nil_r in E1, E2. rewrite E1, E2.
  change (String.eqb ".." "") with false.
  change (Path.isAbsolute "..") with false.
  change (String.eqb ("/" ++ Js.join "/" (dirs ++ [name])) "") with false.
  change (Path.isAbsolute ("/" ++ Js.join "/" (dirs ++ [name]))) with true.
  cbv iota beta. f_equal.
  unfold Path.normalizeString.
  rewrite (split_app_slash ("/" ++ Js.join "/" (dirs ++ [name]))).
  rewrite (split_app_slash "" (Js.join "/" (dirs ++ [name]))
           : Js.split Js.SLASH ("/" ++ Js.join "/" (dirs ++ [name])) = _).
  change (Js.split Js.SLASH "") with [""].
  rewrite !fold_left_app. cbn [fold_left].
  change (Path.normalize_step (negb true) [] "") with (@nil string).
  rewrite normalize_join.
  2:{ unfold plain_names in *. rewrite forallb_app, Hd. cbn [forallb].
      now rewrite Hn. }
  rewrite rev_app_distr, app_nil_r. cbn [rev app].
  rewrite (normalize_sibling _ _ _ _ Hn Hl).
  cbn [rev]. now rewrite rev_involutive.
Qed.

Lemma resolve_relative_sibling (cdirs dirs : list string)
    (name legacy : string) :
  plain_names cdirs = true -> plain_names dirs = true ->
  plain_name name = true -> plain_name legacy = true ->
  Path.resolve (rooted cdirs) [Js.join "/" (dirs ++ [name]); ".."; legacy]
  = rooted (cdirs ++ dirs ++ [legacy]).
Proof.
  intros Hc Hd Hn Hl. unfold Path.resolve.
  cbn [rev app Path.resolve_loop].
  destruct (plain_name_relative legacy "" Hl) as [E1 E2].
  rewrite append_nil_r in E1, E2. rewrite E1, E2.
  change (String.eqb ".." "") with false.
  change (Path.isAbsolute "..") with false.
  assert (Hrel : String.eqb (Js.join "/" (dirs ++ [name])) "" = false
                 /\ Path.isAbsolute (Js.join "/" (dirs ++ [name])) = false).
  { rewrite join_snoc. destruct dirs as [|x dirs].
    - pose proof (plain_name_relative name "" Hn) as H.
      now rewrite append_nil_r in H.
    - unfold plain_names in Hd. cbn [forallb] in Hd.
      apply andb_true_iff in Hd as [Hx _].
      destruct dirs as [|y dirs].
      + cbn [Js.join]. now apply plain_name_relative.
      + change (Js.join "/" (x :: y :: dirs))
          with (x ++ "/" ++ Js.join "/" (y :: dirs)).
        rewrite !append_assoc. now apply plain_name_relative. }
  destruct Hrel as [E3 E4]. rewrite E3, E4.
  unfold rooted at 1 2.
  change (String.eqb ("/" ++ Js.join "/" cdirs) "") with false.
  change (Path.isAbsolute ("/" ++ Js.join "/" cdirs)) with true.
  cbv iota beta. unfold rooted. f_equal.
  unfold Path.normalizeString.
  rewrite (split_app_slash ("/" ++ Js.join "/" cdirs)).
  rewrite (split_app_slash (Js.join "/" (dirs ++ [name]))).
  rewrite (split_app_slash "" (Js.join "/" cdirs)
           : Js.split Js.SLASH ("/" ++ Js.join "/" cdirs) = _).
  change (Js.split Js.SLASH "") with [""].
  rewrite !fold_left_app. cbn [fold_left].
  change (Path.normalize_step (negb true) [] "") with (@nil string).
  rewrite (normalize_join _ _ _ Hc).
  rewrite normalize_join.
  2:{ unfold plain_names in *. rewrite forallb_app, Hd. cbn [forallb].
      now rewrite Hn. }
  rewrite rev_app_distr, app_nil_r. cbn [rev app].
  rewrite (normalize_sibling _ _ _ _ Hn Hl).
  cbn [rev]. rewrite rev_app_distr, !rev_involutive.
  now rewrite <- app_assoc.
Qed.

Lemma basename_join (dirs : list string) (name : string) :
  plain_name name = true ->
  Path.basename (Js.join "/" (dirs ++ [name])) = name
  /\ Path.basename (rooted (dirs ++ [name])) = name.
Proof.
  intros H. unfold rooted. rewrite join_snoc. destruct dirs as [|x dirs].
  - split; [apply (basename_last "" name H)|].
    apply (basename_last "" name H).
  - split; [apply (basename_last _ name H)|].
    rewrite <- append_assoc. apply (basename_last _ name H).
Qed.

Lemma html_replacer_rooted
    (cwd : string) (sp : Splice) (dirs : list string) (matched : string) :
  plain_names dirs = true ->
  plain_name (Chunk.fileName (mainChunk sp)) = true ->
  plain_name (Chunk.fileName (legacyChunk sp)) = true ->
  html_replacer cwd sp matched
    (rooted (dirs ++ [Chunk.fileName (mainChunk sp)]))
  = getLoader sp (rooted (dirs ++ [Chunk.fileName (mainChunk sp)]))
      (rooted (dirs ++ [Chunk.fileName (legacyChunk sp)])).
Proof.
  intros Hd Hn Hl. unfold html_replacer.
  destruct (basename_join dirs _ Hn) as [_ ->].
  rewrite String.eqb_refl.
  now rewrite (resolve_rooted_sibling cwd dirs _ _ Hd Hn Hl).
Qed.

(** X8. For a tag that refers to the entry chunk by a path from the root,
    in whatever directory, the loader is generated for that path and for
    the path of the legacy chunk in the same directory; the working
    directory of the build plays no part. *)
Theorem legacy_url_is_sibling_of_rooted_entry
    (cwd cwd' : string) (sp : Splice) (dirs : list string)
    (matched : string) :
  plain_names dirs = true ->
  plain_name (Chunk.fileName (mainChunk sp)) = true ->
  plain_name (Chunk.fileName (legacyChunk sp)) = true ->
  html_replacer cwd sp matched
    (rooted (dirs ++ [Chunk.fileName (mainChunk sp)]))
  = getLoader sp (rooted (dirs ++ [Chunk.fileName (mainChunk sp)]))
      (rooted (dirs ++ [Chunk.fileName (legacyChunk sp)]))
  /\ html_replacer cwd sp matched
       (rooted (dirs ++ [Chunk.fileName (mainChunk sp)]))
     = html_replacer cwd' sp matched
         (rooted (dirs ++ [Chunk.fileName (mainChunk sp)])).
Proof.
  intros Hd Hn Hl.
  rewrite !(html_replacer_rooted _ sp dirs matched Hd Hn Hl). now split.
Qed.

Lemma legacy_url_is_sibling_of_rooted_entry_example :
  let sp := installed
              {| root := "/srv/app"; outDir := "dist"; assetsDir := "assets";
                 sourcemap := false; minify := MinifyFalse;
                 terserOption := ""; write := true;
                 esbuildTarget := "es2019" |}
              (Chunk.make "index.js" "" None true)
              (Chunk.make "index.legacy.js" "" None true) in
  html_replacer "/home/ci" sp "" (rooted ["app"; "assets"; "index.js"])
  = getLoader sp (rooted ["app"; "assets"; "index.js"])
      (rooted ["app"; "assets"; "index.legacy.js"]).
Proof.
  exact (proj1
         (legacy_url_is_sibling_of_rooted_entry "/home/ci" "/"
           (installed
              {| root := "/srv/app"; outDir := "dist"; assetsDir := "assets";
                 sourcemap := false; minify := MinifyFalse;
                 terserOption := ""; write := true;
                 esbuildTarget := "es2019" |}
              (Chunk.make "index.js" "" None true)
              (Chunk.make "index.legacy.js" "" None true))
           ["app"; "assets"] "" eq_refl eq_refl eq_refl)).
Defined.

(** X9. For a tag that refers to the entry chunk by a relative path, the
    legacy URL handed to the loader is resolved against the working
    directory of the build process: it is the path of that directory
    followed by the directories of the tag and the name of the legacy
    chunk. *)
Theorem legacy_url_of_relative_entry_is_under_cwd
    (sp : Splice) (cdirs dirs : list string) (matched : string) :
  plain_names cdirs = true ->
  plain_names dirs = true ->
  plain_name (Chunk.fileName (mainChunk sp)) = true ->
  plain_name (Chunk.fileName (legacyChunk sp)) = true ->
  html_replacer (rooted cdirs) sp matched
    (Js.join "/" (dirs ++ [Chunk.fileName (mainChunk sp)]))
  = getLoader sp (Js.join "/" (dirs ++ [Chunk.fileName (mainChunk sp)]))
      (rooted (cdirs ++ dirs ++ [Chunk.fileName (legacyChunk sp)])).
Proof.
  intros Hc Hd Hn Hl. unfold html_replacer.
  destruct (basename_join dirs _ Hn) as [-> _].
  rewrite String.eqb_refl.
  now rewrite (resolve_relative_sibling cdirs dirs _ _ Hc Hd Hn Hl).
Qed.

Lemma legacy_url_of_relative_entry_is_under_cwd_example :
  let sp := installed
              {| root := "/srv/app"; outDir := "dist"; assetsDir := "assets";
                 sourcemap := false; minify := MinifyFalse;
                 terserOption := ""; write := true;
                 esbuildTarget := "es2019" |}
              (Chunk.make "index.js" "" None true)
              (Chunk.make "index.legacy.js" "" None true) in
  html_replacer "/home/ci" sp "" "assets/index.js"
  = getLoader sp "assets/index.js" "/home/ci/assets/index.legacy.js".
Proof.
  exact (legacy_url_of_relative_entry_is_under_cwd
           (installed
              {| root := "/srv/app"; outDir := "dist"; assetsDir := "assets";
                 sourcemap := false; minify := MinifyFalse;
                 terserOption := ""; write := true;
                 esbuildTarget := "es2019" |}
              (Chunk.make "index.js" "" None true)
              (Chunk.make "index.legacy.js" "" None true))
           ["home"; "ci"] ["assets"] "" eq_refl eq_refl eq_refl eq_refl).
Defined.

(* --------------------------------------------------------------------- *)
(** ** The resolve plugin                                                 *)
(* --------------------------------------------------------------------- *)

Lemma startsWith_inv (prefix id : string) :
  startsWith prefix id = true -> exists rest, id = prefix ++ rest.
Proof.
  unfold startsWith. destruct (Js.strip_prefix prefix id) as [rest|] eqn:E;
    [|discriminate].
  intros _. exists rest. now apply strip_prefix_inv.
Qed.

(** X10. The resolve plugin of the nested bundle, for a build started in
    an absolute working directory.  The entry of the job resolves to itself
    and is loaded as the code and the map Babel returned.  An id under
    core-js is never the entry: it is resolved by the resolver of Node,
    whose failure is the failure of the hook, and it is not loaded by this
    plugin.  Every other id is left to the other plugins. *)
Theorem resolve_plugin_serves_entry_and_polyfills
    (require_resolve : string -> Result string) (cwd : string)
    (c : Chunk.t) (viteConfig : BuildConfig) (t : BabelFileResult) :
  Path.isAbsolute cwd = true ->
  let job := legacy_job cwd c viteConfig t in
  let entry := input job in
  (resolveId require_resolve entry entry = ret (Some entry)
   /\ load entry t entry = Some (load_code job, load_map job))
  /\ (forall id,
        startsWith "core-js/" id = true ->
        id <> entry
        /\ resolveId require_resolve entry id
           = bind (require_resolve id) (fun resolved => ret (Some resolved))
        /\ (forall e, require_resolve id = throw e ->
                      resolveId require_resolve entry id = throw e)
        /\ load entry t id = None)
  /\ (forall id,
        id <> entry -> startsWith "core-js/" id = false ->
        resolveId require_resolve entry id = ret None
        /\ load entry t id = None).
Proof.
  intros Hcwd. cbv zeta. cbn [legacy_job input load_code load_map].
  set (entry := legacyPath cwd c viteConfig).
  assert (Habs : Path.isAbsolute entry = true).
  { now apply legacyPath_absolute_cwd. }
  unfold resolveId, load. split; [|split].
  - now rewrite String.eqb_refl.
  - intros id Hid.
    assert (Hne : id <> entry).
    { intros ->. apply startsWith_inv in Hid as [rest E].
      rewrite E in Habs. discriminate. }
    apply String.eqb_neq in Hne as Hneb. rewrite Hneb, Hid.
    split; [exact Hne|]. split; [reflexivity|]. split; [|reflexivity].
    intros e He. now rewrite He.
  - intros id Hne Hid. apply String.eqb_neq in Hne. now rewrite Hne, Hid.
Qed.

Lemma resolve_plugin_serves_entry_and_polyfills_example :
  let viteConfig :=
    {| root := "/app"; outDir := "dist"; assetsDir := "assets";
       sourcemap := false; minify := MinifyTerser; terserOption := "";
       write := true; esbuildTarget := "es2019" |} in
  let c := Chunk.make "main.js" "export {}" None true in
  let t := {| babel_code := "var a"; babel_map := None |} in
  let require_resolve := fun id : string =>
    if String.eqb id "core-js/modules/es.promise.js"
    then ret "/app/node_modules/core-js/modules/es.promise.js"
    else throw (EngineError "Cannot find module") in
  resolveId require_resolve "/app/dist/assets/main.legacy.js"
    "/app/dist/assets/main.legacy.js"
  = ret (Some "/app/dist/assets/main.legacy.js")
  /\ load "/app/dist/assets/main.legacy.js" t
       "/app/dist/assets/main.legacy.js"
     = Some ("var a", None).
Proof.
  cbv zeta.
  exact (proj1
           (resolve_plugin_serves_entry_and_polyfills
              (fun id =>
                 if String.eqb id "core-js/modules/es.promise.js"
                 then ret "/app/node_modules/core-js/modules/es.promise.js"
                 else throw (EngineError "Cannot find module"))
              "/srv"
              (Chunk.make "main.js" "export {}" None true)
              {| root := "/app"; outDir := "dist"; assetsDir := "assets";
                 sourcemap := false; minify := MinifyTerser;
                 terserOption := ""; write := true;
                 esbuildTarget := "es2019" |}
              {| babel_code := "var a"; babel_map := None |}
              eq_refl)).
Defined.

(* --------------------------------------------------------------------- *)
(** ** From the tag to the request of the browser                         *)
(* --------------------------------------------------------------------- *)

Lemma set_html_one_tag (cwd : string) (sp : Splice) (st : Slots)
    (before moduleId after : string) :
  contains_module_script before = false ->
  valid_moduleId moduleId = true ->
  contains_module_script after = false ->
  get_html (set_html cwd sp (before ++ module_script moduleId ++ after) st)
  = Some (before ++ html_replacer cwd sp (module_script moduleId) moduleId
          ++ after).
Proof.
  intros Hb Hm Ha. unfold get_html, set_html. cbn [html].
  change (before ++ module_script moduleId ++ after)
    with (render (Tag before moduleId (Text after))).
  rewrite replace_render.
  - reflexivity.
  - cbn [well_cut]. now rewrite Hb, Hm, Ha.
Qed.



(* --------------------------------------------------------------------- *)
(** ** Tags the HTML override keeps                                       *)
(* --------------------------------------------------------------------- *)

Lemma basename_no_slash (dir name : string) :
  no_slash name = true -> name <> "" ->
  Path.basename (dir ++ "/" ++ name) = name.
Proof.
  intros Hs Hne. unfold Path.basename.
  rewrite split_app_slash, (split_no_slash _ Hs).
  now apply last_segment_app.
Qed.

(** X12. A tag that refers to the entry chunk with something after its
    name, a query or a fragment, is kept as it is: only the bare file name
    at the end of the path makes the tag the one of the entry chunk. *)
Theorem tag_with_suffix_after_entry_name_is_kept
    (cwd : string) (sp : Splice) (st : Slots)
    (before dir suffix after : string) :
  no_slash (Chunk.fileName (mainChunk sp)) = true ->
  no_slash suffix = true -> suffix <> "" ->
  let moduleId := dir ++ "/" ++ Chunk.fileName (mainChunk sp) ++ suffix in
  no_dq moduleId = true ->
  contains_module_script before = false ->
  contains_module_script after = false ->
  get_html (set_html cwd sp (before ++ module_script moduleId ++ after) st)
  = Some (before ++ module_script moduleId ++ after).
Proof.
  intros Hn Hs Hne. cbv zeta. intros Hdq Hb Ha.
  rewrite set_html_one_tag; [|exact Hb| |exact Ha].
  - unfold html_replacer. rewrite basename_no_slash.
    + destruct (String.eqb_spec
                  (Chunk.fileName (mainChunk sp) ++ suffix)
                  (Chunk.fileName (mainChunk sp))) as [E|_]; [|reflexivity].
      apply (f_equal String.length) in E. rewrite length_append in E.
      destruct suffix; [congruence|simpl in E; lia].
    + now rewrite no_slash_app, Hn, Hs.
    + destruct (Chunk.fileName (mainChunk sp)); [|discriminate].
      exact Hne.
  - unfold valid_moduleId. rewrite Hdq.
    destruct dir; reflexivity.
Qed.

Lemma tag_with_suffix_after_entry_name_is_kept_example :
  let sp := installed
              {| root := "/app"; outDir := "dist"; assetsDir := "assets";
                 sourcemap := false; minify := MinifyTerser;
                 terserOption := ""; write := true;
                 esbuildTarget := "es2019" |}
              (Chunk.make "main.js" "export {}" None true)
              (Chunk.make "main.legacy.js" "var a" None true) in
  get_html (set_html "/srv" sp
              ("<body>" ++ module_script ("/assets" ++ "/" ++ "main.js" ++ "?v=2")
               ++ "</body>") empty_slots)
  = Some ("<body>" ++ module_script ("/assets" ++ "/" ++ "main.js" ++ "?v=2")
          ++ "</body>").
Proof.
  cbv zeta.
  apply (tag_with_suffix_after_entry_name_is_kept "/srv"
           (installed
              {| root := "/app"; outDir := "dist"; assetsDir := "assets";
                 sourcemap := false; minify := MinifyTerser;
                 terserOption := ""; write := true;
                 esbuildTarget := "es2019" |}
              (Chunk.make "main.js" "export {}" None true)
              (Chunk.make "main.legacy.js" "var a" None true))
           empty_slots "<body>" "/assets" "?v=2" "</body>");
    [reflexivity|reflexivity|discriminate|reflexivity|reflexivity
    |reflexivity].
Defined.

Lemma split_pieces_no_slash (s : string) :
  forallb no_slash (Js.split Js.SLASH s) = true.
Proof.
  induction s as [|c s IH]; [reflexivity|].
  cbn [Js.split]. destruct (Ascii.eqb c Js.SLASH) eqn:E.
  - cbn [forallb no_slash]. exact IH.
  - destruct (Js.split Js.SLASH s) as [|h t].
    + cbn [forallb no_slash]. now rewrite E.
    + cbn [forallb] in IH |- *. cbn [no_slash]. now rewrite E.
Qed.

Lemma last_segment_no_slash (segs : list string) (found : string) :
  forallb no_slash segs = true -> no_slash found = true ->
  no_slash (Path.last_segment segs found) = true.
Proof.
  revert found. induction segs as [|seg segs IH]; intros found Hs Hf;
    [exact Hf|].
  cbn [forallb] in Hs. apply andb_true_iff in Hs as [Hseg Hs].
  cbn [Path.last_segment]. apply IH; [exact Hs|].
  now destruct (String.eqb seg "").
Qed.

Lemma basename_has_no_slash (p : string) :
  no_slash (Path.basename p) = true.
Proof.
  unfold Path.basename. apply last_segment_no_slash;
    [apply split_pieces_no_slash|reflexivity].
Qed.

Lemma spliced_unmatched (cwd : string) (sp : Splice) (h : Html) :
  (forall moduleId,
     String.eqb (Path.basename moduleId) (Chunk.fileName (mainChunk sp))
     = false) ->
  spliced cwd sp h = render h.
Proof.
  intros H. induction h as [text|text moduleId rest IH]; [reflexivity|].
  cbn [spliced render]. now rewrite H, IH.
Qed.

(** X13. An entry chunk whose file name holds a directory is never
    recognised: the base name of a path holds no slash, so no tag compares
    equal to it, and the HTML override returns every text as it is. *)
Theorem entry_name_with_directory_is_never_matched
    (cwd : string) (sp : Splice) (st : Slots) (content : string) :
  no_slash (Chunk.fileName (mainChunk sp)) = false ->
  get_html (set_html cwd sp content st) = Some content.
Proof.
  intros Hn. unfold get_html, set_html. cbn [html].
  destruct (cut_exists content) as (h & Hw & <-).
  rewrite (replace_render cwd sp h Hw). f_equal.
  apply spliced_unmatched. intros moduleId.
  apply String.eqb_neq. intros E.
  pose proof (basename_has_no_slash moduleId) as H.
  rewrite E in H. congruence.
Qed.

Lemma entry_name_with_directory_is_never_matched_example :
  let sp := installed
              {| root := "/app"; outDir := "dist"; assetsDir := "assets";
                 sourcemap := false; minify := MinifyTerser;
                 terserOption := ""; write := true;
                 esbuildTarget := "es2019" |}
              (Chunk.make "assets/main.js" "export {}" None true)
              (Chunk.make "main.legacy.js" "var a" None true) in
  get_html (set_html "/srv" sp (module_script "/assets/main.js")
              empty_slots)
  = Some (module_script "/assets/main.js").
Proof.
  cbv zeta.
  apply (entry_name_with_directory_is_never_matched "/srv"
           (installed
              {| root := "/app"; outDir := "dist"; assetsDir := "assets";
                 sourcemap := false; minify := MinifyTerser;
                 terserOption := ""; write := true;
                 esbuildTarget := "es2019" |}
              (Chunk.make "assets/main.js" "export {}" None true)
              (Chunk.make "main.legacy.js" "var a" None true))
           empty_slots (module_script "/assets/main.js")).
  reflexivity.
Defined.
